(** * Outbreak Alert System (app.py): a shallow embedding of the pipeline

    The script reads a weekly surveillance table, builds a facility key,
    parses the period label, assigns a season, melts the disease columns,
    joins the thresholds and classifies every observation.  Each stage of
    the script is a function below; the theorems are at the end.

    Conventions of the model:
    - a frame is a header and a list of records, a record a finite map from
      column names to cells; pandas works column by column, the model
      record by record, which gives the same table since every operation of
      the script acts position by position;
    - a cell of the upload is missing, a text or an integer; the thresholds
      table is typed, with exact rationals for its float64 columns, so
      rounding is not modelled;
    - texts are sequences of 8-bit characters; the period pattern is read
      on ASCII texts only, where [\d] is the class 0-9;
    - integers are modelled where pandas holds them exactly whatever the
      dtype of their column: within int64 for a count, up to 15 digits for
      a numeral read by [pd.to_numeric];
    - outside these limits a stage returns [NotModelled] instead of a
      result. *)

From Stdlib Require Import ZArith QArith Ascii String DecimalString List Bool.
From stdpp Require Import base option list strings gmap.

Open Scope Z_scope.
Open Scope string_scope.

(** ** Values *)

(** A cell of a DataFrame: missing (NaN / None), a text, or an integer. *)
Inductive cell := NaN | Str (s : string) | Int (z : Z).

#[global] Instance cell_eq_dec : EqDecision cell.
Proof. solve_decision. Defined.

(** What the script can raise.  [NotModelled] is no exception of the
    script: a stage returns it where the outcome of pandas depends on the
    dtype inferred for a column, on the version of the library or on the
    Unicode tables, which a frame of cells does not record.  The script may
    well return a value there; the theorems say nothing about it. *)
Inductive exn :=
  | KeyError (col : string)
  | ValueError (what : string)
  | TypeError (what : string)
  | NotModelled (why : string).

Inductive result (A : Type) := Ok (a : A) | Raise (e : exn).
Arguments Ok {A} a.
Arguments Raise {A} e.

Definition bind {A B} (m : result A) (f : A -> result B) : result B :=
  match m with Ok a => f a | Raise e => Raise e end.

Notation "'try' x <- m 'in' k" := (bind m (fun x => k))
  (at level 10, x name, m at level 100, k at level 200).

(** ** Numeric columns

    A numeric column holds numbers or NaN.  Case counts are integers
    ([option Z]); thresholds come from the CSV and are fractional
    ([option Q], exact rationals standing for the float64 values).  [None]
    is NaN. *)

Definition notna {A} (x : option A) : bool :=
  match x with Some _ => true | None => false end.

Definition Qltb (x y : Q) : bool := negb (Qle_bool y x).

(** [Cases > Threshold]: a comparison with NaN on either side is False. *)
Definition num_gt (c : option Z) (t : option Q) : bool :=
  match c, t with
  | Some c, Some t => Qltb t (inject_Z c)
  | _, _ => false
  end.

(** [Cases - Threshold]: NaN on either side gives NaN. *)
Definition num_sub (c : option Z) (t : option Q) : option Q :=
  match c, t with
  | Some c, Some t => Some (inject_Z c - t)%Q
  | _, _ => None
  end.

(** [Deviation >= min_deviation]: False on NaN. *)
Definition num_ge (d : option Q) (m : Z) : bool :=
  match d with
  | Some d => Qle_bool (inject_Z m) d
  | None => false
  end.

(** [np.where(cond, x, y)] at one position. *)
Definition np_where {A} (cond : bool) (x y : A) : A := if cond then x else y.

(** ** The alert classifier (lines 101-113) *)

Inductive alert_level := Normal | Alert | High_Alert.

#[global] Instance alert_level_eq_dec : EqDecision alert_level.
Proof. solve_decision. Defined.

(** A reference row of the thresholds table. *)
Record threshold_row := {
  th_Facility_ID : cell;
  th_Disease : cell;
  th_Season : cell;
  th_Mean : option Q;
  th_SD : option Q;
  th_Threshold_95 : option Q;
  th_Threshold_99 : option Q
}.

(** A long observation: one row of [current_long]. *)
Record long_row := {
  l_Facility_ID : cell;
  l_Season : cell;
  l_Disease : cell;
  l_Cases : option Z
}.

(** A row of [alerts] right after the merge. *)
Record merged_row := {
  m_Facility_ID : cell;
  m_Disease : cell;
  m_Season : cell;
  m_Cases : option Z;
  m_Mean : option Q;
  m_SD : option Q;
  m_Threshold_95 : option Q;
  m_Threshold_99 : option Q
}.

(** A row of [alerts] with the two computed columns. *)
Record alert_row := {
  Facility_ID : cell;
  Disease : cell;
  Season : cell;
  Cases : option Z;
  Mean : option Q;
  SD : option Q;
  Threshold_95 : option Q;
  Threshold_99 : option Q;
  Alert_Level : alert_level;
  Deviation : option Q
}.

(** The nested [np.where] of lines 103-108. *)
Definition alert_level_of (cases : option Z) (t95 t99 : option Q) : alert_level :=
  np_where (num_gt cases t99 && notna t99) High_Alert
    (np_where (num_gt cases t95 && notna t95) Alert Normal).

(** The nested [np.where] of lines 110-113: it reads the level just
    computed, not the comparisons. *)
Definition deviation_of (level : alert_level) (cases : option Z)
    (t95 t99 : option Q) : option Q :=
  np_where (bool_decide (level = High_Alert)) (num_sub cases t99)
    (np_where (bool_decide (level = Alert)) (num_sub cases t95) (Some 0%Q)).

Definition classify (m : merged_row) : alert_row :=
  let level := alert_level_of (m_Cases m) (m_Threshold_95 m) (m_Threshold_99 m) in
  {| Facility_ID := m_Facility_ID m;
     Disease := m_Disease m;
     Season := m_Season m;
     Cases := m_Cases m;
     Mean := m_Mean m;
     SD := m_SD m;
     Threshold_95 := m_Threshold_95 m;
     Threshold_99 := m_Threshold_99 m;
     Alert_Level := level;
     Deviation := deviation_of level (m_Cases m) (m_Threshold_95 m) (m_Threshold_99 m) |}.

(** [on=['Facility_ID', 'Disease', 'Season']]: the key of a left row
    against the key of a thresholds row (pandas joins NaN with NaN). *)
Definition key_match (l : long_row) (t : threshold_row) : bool :=
  bool_decide (l_Facility_ID l = th_Facility_ID t)
  && bool_decide (l_Disease l = th_Disease t)
  && bool_decide (l_Season l = th_Season t).

Definition with_thresholds (l : long_row) (t : threshold_row) : merged_row :=
  {| m_Facility_ID := l_Facility_ID l; m_Disease := l_Disease l;
     m_Season := l_Season l; m_Cases := l_Cases l;
     m_Mean := th_Mean t; m_SD := th_SD t;
     m_Threshold_95 := th_Threshold_95 t; m_Threshold_99 := th_Threshold_99 t |}.

Definition without_thresholds (l : long_row) : merged_row :=
  {| m_Facility_ID := l_Facility_ID l; m_Disease := l_Disease l;
     m_Season := l_Season l; m_Cases := l_Cases l;
     m_Mean := None; m_SD := None;
     m_Threshold_95 := None; m_Threshold_99 := None |}.

(** [current_long.merge(thresholds, on=..., how='left')]: left order is
    kept; a left row with several matches fans out, one without any match
    is kept with NaN in the thresholds' columns. *)
Definition merge_left (current_long : list long_row)
    (thresholds : list threshold_row) : list merged_row :=
  flat_map (fun l =>
    match filter (fun t => key_match l t = true) thresholds with
    | [] => [without_thresholds l]
    | ts => map (with_thresholds l) ts
    end) current_long.

Definition classify_all (merged : list merged_row) : list alert_row :=
  map classify merged.

(** ** The report selector (lines 115-122) *)

(** The row mask of line 116. *)
Definition alert_mask (min_deviation : Z) (a : alert_row) : bool :=
  bool_decide (Alert_Level a <> Normal)
  && notna (Threshold_95 a)
  && num_ge (Deviation a) min_deviation.

Definition filtered_alerts (min_deviation : Z) (alerts : list alert_row)
    : list alert_row :=
  filter (fun a => alert_mask min_deviation a = true) alerts.

(** Line 122. *)
Definition all_data (alerts : list alert_row) : list alert_row :=
  filter (fun a => notna (Threshold_95 a) = true) alerts.

(** The table that is shown and offered for download. *)
Definition report (show_all : bool) (min_deviation : Z)
    (alerts : list alert_row) : list alert_row :=
  if show_all then all_data alerts else filtered_alerts min_deviation alerts.

(** ** Texts *)

Definition is_digit (c : ascii) : bool :=
  (48 <=? nat_of_ascii c)%nat && (nat_of_ascii c <=? 57)%nat.

Definition digit_value (c : ascii) : Z := Z.of_nat (nat_of_ascii c) - 48.

(** ASCII characters removed by [str.strip()]. *)
Definition is_space (c : ascii) : bool :=
  let n := nat_of_ascii c in
  ((9 <=? n)%nat && (n <=? 13)%nat) || ((28 <=? n)%nat && (n <=? 32)%nat).

Fixpoint lstrip (s : string) : string :=
  match s with
  | String c s' => if is_space c then lstrip s' else s
  | EmptyString => EmptyString
  end.

(** Removes trailing whitespace: a character stays when it is not a space
    or when something stays after it. *)
Fixpoint rstrip (s : string) : string :=
  match s with
  | String c s' =>
      match rstrip s' with
      | EmptyString => if is_space c then EmptyString else String c EmptyString
      | t => String c t
      end
  | EmptyString => EmptyString
  end.

Definition strip (s : string) : string := rstrip (lstrip s).

Fixpoint take_str (n : nat) (s : string) : string :=
  match n, s with
  | S n', String c s' => String c (take_str n' s')
  | _, _ => EmptyString
  end.

Fixpoint drop_str (n : nat) (s : string) : string :=
  match n, s with
  | S n', String _ s' => drop_str n' s'
  | _, _ => s
  end.

Fixpoint all_chars (p : ascii -> bool) (s : string) : bool :=
  match s with
  | String c s' => p c && all_chars p s'
  | EmptyString => true
  end.

(** The characters below 128: on a text made of them [\d] is 0-9 and
    [str.strip()] removes the characters of [is_space]. *)
Definition is_ascii (c : ascii) : bool := (nat_of_ascii c <? 128)%nat.

Definition ascii_text (s : string) : bool := all_chars is_ascii s.

(** The range of the dtype int64. *)
Definition int64 (z : Z) : bool :=
  (- 2 ^ 63 <=? z)%Z && (z <? 2 ^ 63)%Z.

(** [sub in s] for two texts. *)
Fixpoint contains (sub s : string) : bool :=
  String.prefix sub s
  || match s with
     | String _ s' => contains sub s'
     | EmptyString => false
     end.

(** The integer written by a run of decimal digits, most significant
    first. *)
Fixpoint decimal_value (acc : Z) (s : string) : Z :=
  match s with
  | String c s' => decimal_value (10 * acc + digit_value c) s'
  | EmptyString => acc
  end.

(** [str(z)] for an integer. *)
Definition decimal (z : Z) : string :=
  NilEmpty.string_of_int (Z.to_int z).

(** ** Regular expressions

    The fragment of [re] that the period pattern uses: a sequence of
    pieces, each a character class with a quantifier, some of them
    capturing groups.  [\d] is read on ASCII texts. *)

Inductive charset := Digit | Char (c : ascii).

Inductive quantifier := Once | Times (n : nat) | OneOrMore.

Record piece := {
  p_set : charset;
  p_quant : quantifier;
  p_capture : bool
}.

Definition regex := list piece.

Definition in_charset (cs : charset) (c : ascii) : bool :=
  match cs with
  | Digit => is_digit c
  | Char d => Ascii.eqb c d
  end.

(** Length of the longest prefix made of characters of the class. *)
Fixpoint span (cs : charset) (s : string) : nat :=
  match s with
  | String c s' => if in_charset cs c then S (span cs s') else 0%nat
  | EmptyString => 0%nat
  end.

(** The lengths a quantified class may consume when [k] characters of the
    class are ahead, in the order the backtracking matcher tries them:
    [+] is greedy. *)
Definition candidates (q : quantifier) (k : nat) : list nat :=
  match q with
  | Once => if (1 <=? k)%nat then [1%nat] else []
  | Times n => if (n <=? k)%nat then [n] else []
  | OneOrMore => rev (seq 1 k)
  end.

Fixpoint first_some {A B} (f : A -> option B) (l : list A) : option B :=
  match l with
  | [] => None
  | x :: l' => match f x with Some y => Some y | None => first_some f l' end
  end.

(** A match of [r] starting at the head of [s]: the captured groups. *)
Fixpoint match_here (r : regex) (s : string) : option (list string) :=
  match r with
  | [] => Some []
  | p :: r' =>
      first_some (fun n =>
        match match_here r' (drop_str n s) with
        | Some groups =>
            Some (if p_capture p then take_str n s :: groups else groups)
        | None => None
        end) (candidates (p_quant p) (span (p_set p) s))
  end.

(** [re.search]: the leftmost match. *)
Fixpoint search (r : regex) (s : string) : option (list string) :=
  match match_here r s with
  | Some groups => Some groups
  | None =>
      match s with
      | String _ s' => search r s'
      | EmptyString => None
      end
  end.

(** A literal text, one piece per character. *)
Fixpoint literal (s : string) : regex :=
  match s with
  | String c s' =>
      {| p_set := Char c; p_quant := Once; p_capture := false |} :: literal s'
  | EmptyString => []
  end.

Definition digits (q : quantifier) : regex :=
  [{| p_set := Digit; p_quant := q; p_capture := false |}].

Definition group_digits (q : quantifier) : regex :=
  [{| p_set := Digit; p_quant := q; p_capture := true |}].

(** [r'Week (\d+) (\d{4})-\d{2}-\d{2} - \d{4}-\d{2}-\d{2}'] *)
Definition patterns_0 : regex :=
  (literal "Week " ++ group_digits OneOrMore ++ literal " "
   ++ group_digits (Times 4) ++ literal "-" ++ digits (Times 2)
   ++ literal "-" ++ digits (Times 2) ++ literal " - "
   ++ digits (Times 4) ++ literal "-" ++ digits (Times 2)
   ++ literal "-" ++ digits (Times 2))%list.

(** ** DataFrames

    A frame is its header and its records; a record maps column names to
    cells, and a column without an entry in a record reads as missing. *)

Record DataFrame := {
  columns : list string;
  rows : list (gmap string cell)
}.

Definition at_col (r : gmap string cell) (col : string) : cell :=
  default NaN (r !! col).

Definition has_column (df : DataFrame) (col : string) : bool :=
  bool_decide (col ∈ columns df).

(** The header after an assignment to [col]: a new column goes last. *)
Definition add_column (header : list string) (col : string) : list string :=
  if bool_decide (col ∈ header) then header else (header ++ [col])%list.

(** [df[col] = f(record)]: an existing column is overwritten in place, a
    new one is appended to the header. *)
Definition assign (df : DataFrame) (col : string)
    (f : gmap string cell -> cell) : DataFrame :=
  {| columns := add_column (columns df) col;
     rows := map (fun r => <[col := f r]> r) (rows df) |}.

(** The first column of [cols] that the frame lacks is a KeyError. *)
Fixpoint require_columns (df : DataFrame) (cols : list string) : result unit :=
  match cols with
  | [] => Ok tt
  | col :: cols' =>
      if has_column df col then require_columns df cols'
      else Raise (KeyError col)
  end.

Fixpoint map_result {A B} (f : A -> result B) (l : list A) : result (list B) :=
  match l with
  | [] => Ok []
  | x :: l' =>
      try y <- f x in
      try ys <- map_result f l' in
      Ok (y :: ys)
  end.

Definition notna_cell (c : cell) : bool :=
  match c with NaN => false | _ => true end.

Definition fillna (v : cell) (c : cell) : cell :=
  match c with NaN => v | _ => c end.

(** [.astype(str)] *)
Definition astype_str (c : cell) : cell :=
  match c with
  | NaN => Str "nan"
  | Str s => Str s
  | Int z => Str (decimal z)
  end.

(** [+] on two cells of object columns: NaN propagates. *)
Definition cell_add (a b : cell) : result cell :=
  match a, b with
  | NaN, _ | _, NaN => Ok NaN
  | Str x, Str y => Ok (Str (x ++ y))
  | Int x, Int y => Ok (Int (x + y))
  | _, _ => Raise (TypeError "unsupported operand types for +")
  end.

(** The numeric content of a cell of a numeric column. *)
Definition number_of (c : cell) : option Z :=
  match c with Int z => Some z | _ => None end.

(** ** Facility_ID (lines 46-54) *)

Definition org_cols : list string :=
  ["orgunitlevel1"; "orgunitlevel2"; "orgunitlevel3"; "orgunitlevel4";
   "orgunitlevel5"; "orgunitlevel6"; "organisationunitname"].

(** Lines 48-50: the loop skips a column that the header lacks. *)
Definition fill_org_cols (df : DataFrame) : DataFrame :=
  foldl (fun df col =>
           if has_column df col
           then assign df col
                  (fun r => astype_str (fillna (Str "Unknown") (at_col r col)))
           else df)
        df org_cols.

(** Lines 51-54 in one record: the sum is evaluated left to right. *)
Definition facility_id_of (r : gmap string cell) : result cell :=
  foldl (fun acc x => try a <- acc in cell_add a x)
        (Ok (at_col r "orgunitlevel1"))
        [Str "_"; at_col r "orgunitlevel2"; Str "_"; at_col r "orgunitlevel3";
         Str "_"; at_col r "orgunitlevel4"; Str "_"; at_col r "orgunitlevel5";
         Str "_"; at_col r "orgunitlevel6"; Str "_";
         at_col r "organisationunitname"].

(** Lines 47-54.  Every [current_df[col]] of the sum is a KeyError when the
    header lacks [col]. *)
Definition build_facility_id (current_df : DataFrame) : result DataFrame :=
  let df := fill_org_cols current_df in
  try _ <- require_columns df org_cols in
  try rows' <- map_result
                 (fun r => try v <- facility_id_of r in
                           Ok (<["Facility_ID" := v]> r))
                 (rows df) in
  Ok {| columns := add_column (columns df) "Facility_ID"; rows := rows' |}.

(** ** Period labels (lines 56-64) *)

(** [.str.strip()]: the [.str] accessor gives NaN on a cell that is no
    text. *)
Definition str_strip (c : cell) : cell :=
  match c with Str s => Str (strip s) | _ => NaN end.

(** [.str.extract(pat)], group [i] of the leftmost match; NaN when the
    pattern is not found.  On a text with a character outside ASCII Python
    reads [\d] and the whitespace of [strip] from the Unicode tables: not
    modelled. *)
Definition str_extract (pat : regex) (i : nat) (c : cell) : result cell :=
  match c with
  | Str s =>
      if ascii_text s
      then Ok match search pat s with
              | Some groups => from_option Str NaN (groups !! i)
              | None => NaN
              end
      else Raise (NotModelled "a text outside ASCII")
  | _ => Ok NaN
  end.

(** [pd.to_numeric(..., errors='coerce')].  A numeric cell stays as it is.
    The texts that arrive here are captured digit runs: a run of at most 15
    digits is read exactly, whether the column ends up int64 or float64; a
    longer run is exact, wrapped to uint64 or rounded to a float64 according
    to the other cells of its column, and the other literals pandas reads
    never arrive: not modelled. *)
Definition to_numeric (c : cell) : result cell :=
  match c with
  | NaN => Ok NaN
  | Int z =>
      if int64 z then Ok (Int z)
      else Raise (NotModelled "an integer outside int64")
  | Str s =>
      if negb (String.eqb s "") && all_chars is_digit s
         && (String.length s <=? 15)%nat
      then Ok (Int (decimal_value 0 s))
      else Raise (NotModelled "a numeral of more than 15 digits")
  end.

(** Lines 57-63 in one record. *)
Definition parse_period (r : gmap string cell) : result (gmap string cell) :=
  let r := <["periodname" := str_strip (astype_str (at_col r "periodname"))]> r in
  try week <- str_extract patterns_0 0 (at_col r "periodname") in
  try year <- str_extract patterns_0 1 (at_col r "periodname") in
  let r := <["Year" := year]> (<["Week" := week]> r) in
  try year <- to_numeric (at_col r "Year") in
  let r := <["Year" := year]> r in
  try week <- to_numeric (at_col r "Week") in
  Ok (<["Week" := week]> r).

(** The mask of [dropna(subset=['Year', 'Week'])]. *)
Definition has_year_week (r : gmap string cell) : bool :=
  notna_cell (at_col r "Year") && notna_cell (at_col r "Week").

(** Lines 57-64.  [pd.concat] appends the two extracted columns whatever
    the header: when the upload has a column Year or Week of its own the
    label is then twice in the header, [current_df['Year']] (or
    [current_df['Week']]) is a frame of two columns and [pd.to_numeric]
    refuses it, before it looks at any cell. *)
Definition parse_periodname (current_df : DataFrame) : result DataFrame :=
  try _ <- require_columns current_df ["periodname"] in
  if has_column current_df "Year" || has_column current_df "Week"
  then Raise (TypeError "arg must be a list, tuple, 1-d array, or Series")
  else
    try rows' <- map_result parse_period (rows current_df) in
    Ok {| columns := (columns current_df ++ ["Week"; "Year"])%list;
          rows := filter (fun r => has_year_week r = true) rows' |}.

(** ** Disease columns (lines 66-69) *)

Definition is_disease_col (col : string) : bool :=
  contains "(New Cases)" col || contains "(New cases)" col.

Definition disease_cols (df : DataFrame) : list string :=
  filter (fun col => is_disease_col col = true) (columns df).

(** [.astype(int)] on one cell: the target is int64.  An integer outside
    int64 wraps around in a uint64 column and is an OverflowError in an
    object column, and a text goes through [int()], whose literals are not
    those of a digit run only: not modelled. *)
Definition astype_int (c : cell) : result cell :=
  match c with
  | Int z =>
      if int64 z then Ok (Int z)
      else Raise (NotModelled "an integer outside int64")
  | NaN => Raise (ValueError "cannot convert NaN to integer")
  | Str s => Raise (NotModelled "int() of a text")
  end.

(** Lines 68-69 in one record, over the given columns. *)
Fixpoint fill_counts (cols : list string) (r : gmap string cell)
    : result (gmap string cell) :=
  match cols with
  | [] => Ok r
  | col :: cols' =>
      try v <- astype_int (fillna (Int 0) (at_col r col)) in
      fill_counts cols' (<[col := v]> r)
  end.

Definition fill_disease_cols (current_df : DataFrame) : result DataFrame :=
  try rows' <- map_result (fill_counts (disease_cols current_df))
                          (rows current_df) in
  Ok {| columns := columns current_df; rows := rows' |}.

(** ** Seasons (lines 71-85) *)

(** [week] is a cell of the numeric Week column: a number or NaN. *)
Definition assign_season (week : option Z) : string :=
  match week with
  | None => "Unknown"
  | Some week =>
      if (10 <=? week)%Z && (week <=? 20)%Z then "Spring"
      else if (21 <=? week)%Z && (week <=? 35)%Z then "Summer"
      else if (36 <=? week)%Z && (week <=? 43)%Z then "Autumn"
      else "Winter"
  end.

Definition add_season (current_df : DataFrame) : DataFrame :=
  assign current_df "Season"
    (fun r => Str (assign_season (number_of (at_col r "Week")))).

(** ** Melt and the year-round override (lines 87-99) *)

(** One block of [pd.melt]: the records in frame order under the value
    column [disease]; Cases goes through [pd.to_numeric] (line 91). *)
Definition melt_block (current_df : DataFrame) (disease : string)
    : result (list long_row) :=
  map_result (fun r =>
                try cases <- to_numeric (at_col r disease) in
                Ok {| l_Facility_ID := at_col r "Facility_ID";
                      l_Season := at_col r "Season";
                      l_Disease := Str disease;
                      l_Cases := number_of cases |})
             (rows current_df).

(** [pd.melt] with [id_vars=['Facility_ID', 'Season']]: one block of rows
    per value column, in the order of [value_vars].  The identifier and the
    value columns must be in the header.  A column of the frame named as
    [value_name] is an error in pandas 2 and a warning before: not
    modelled. *)
Definition melt (current_df : DataFrame) (value_vars : list string)
    : result (list long_row) :=
  if has_column current_df "Cases"
  then Raise (NotModelled "a column named as value_name")
  else
    try _ <- require_columns current_df
               (["Facility_ID"; "Season"] ++ value_vars)%list in
    try blocks <- map_result (melt_block current_df) value_vars in
    Ok (concat blocks).

Definition year_round_diseases : list string :=
  ["Acute Flaccid Paralysis (New Cases)"; "Botulism (New Cases)";
   "Gonorrhea (New Cases)"; "HIV/AIDS (New Cases)"; "Leprosy (New Cases)";
   "Nosocomial Infections (New Cases)"; "Syphilis (New Cases)";
   "Visceral Leishmaniasis (New Cases)"; "Neonatal Tetanus (New Cases)"].

(** [Series.isin(values)] at one position. *)
Definition isin (c : cell) (values : list string) : bool :=
  bool_decide (c ∈ map Str values).

(** Line 99. *)
Definition override_year_round (current_long : list long_row) : list long_row :=
  map (fun l =>
         if isin (l_Disease l) year_round_diseases
         then {| l_Facility_ID := l_Facility_ID l;
                 l_Season := Str "Year-Round";
                 l_Disease := l_Disease l;
                 l_Cases := l_Cases l |}
         else l)
      current_long.

(** ** The pipeline *)

(** Lines 56-99: from the frame with its Facility_ID to [current_long]. *)
Definition reshape (current_df : DataFrame) : result (list long_row) :=
  try current_df <- parse_periodname current_df in
  try current_df <- fill_disease_cols current_df in
  let value_vars := disease_cols current_df in
  let current_df := add_season current_df in
  try current_long <- melt current_df value_vars in
  Ok (override_year_round current_long).

(** The dtype that [read_csv] gives to a key column of the thresholds
    table: numeric when no cell is a text (also when every cell is missing),
    object as soon as one is. *)
Definition numeric_column (key : threshold_row -> cell)
    (thresholds : list threshold_row) : bool :=
  forallb (fun t => match key t with Str _ => false | _ => true end)
          thresholds.

(** The three keys of an observation are texts. *)
Definition text_keys (l : long_row) : bool :=
  match l_Facility_ID l, l_Disease l, l_Season l with
  | Str _, Str _, Str _ => true
  | _, _, _ => false
  end.

(** Line 102 with the check that [merge] makes before it joins: a text key
    column against a numeric one is a ValueError ("You are trying to merge
    on object and float64 columns"); the check is skipped when exactly one
    of the two tables is empty.  With two empty tables the outcome hangs on
    the dtypes of columns without cells, and keys of [current_long] that
    are no texts never arrive: not modelled. *)
Definition merge (current_long : list long_row)
    (thresholds : list threshold_row) : result (list merged_row) :=
  if negb (forallb text_keys current_long)
  then Raise (NotModelled "a key of current_long that is no text")
  else
    match current_long, thresholds with
    | [], [] => Raise (NotModelled "two empty tables")
    | [], _ | _, [] => Ok (merge_left current_long thresholds)
    | _, _ =>
        if numeric_column th_Facility_ID thresholds
           || numeric_column th_Disease thresholds
           || numeric_column th_Season thresholds
        then Raise (ValueError "You are trying to merge on object and numeric columns")
        else Ok (merge_left current_long thresholds)
    end.

(** Lines 41-122: the table shown for an upload. *)
Definition run (current_df : DataFrame) (thresholds : list threshold_row)
    (min_deviation : Z) (show_all : bool) : result (list alert_row) :=
  try current_df <- build_facility_id current_df in
  try current_long <- reshape current_df in
  try merged <- merge current_long thresholds in
  let alerts := classify_all merged in
  Ok (report show_all min_deviation alerts).

(** ** Vocabulary of the statements *)

(** "The threshold is present and Cases > threshold", as a proposition. *)
Definition exceeds (cases : option Z) (t : option Q) : Prop :=
  exists c q, cases = Some c /\ t = Some q /\ (q < inject_Z c)%Q.

(** "Deviation >= min_deviation", as a proposition. *)
Definition at_least (d : option Q) (m : Z) : Prop :=
  exists q, d = Some q /\ (inject_Z m <= q)%Q.

(** "Cases1 <= Cases2" on a numeric column: False when one side is NaN. *)
Definition num_le (c1 c2 : option Z) : Prop :=
  match c1, c2 with
  | Some x, Some y => x <= y
  | _, _ => False
  end.

(** Normal < Alert < High Alert. *)
Definition level_rank (l : alert_level) : nat :=
  match l with Normal => 0%nat | Alert => 1%nat | High_Alert => 2%nat end.

(** What a quantifier allows as the number of characters consumed. *)
Definition quant_ok (q : quantifier) (n : nat) : Prop :=
  match q with
  | Once => n = 1%nat
  | Times m => n = m
  | OneOrMore => (1 <= n)%nat
  end.

(** A text that a piece can consume. *)
Definition piece_ok (p : piece) (t : string) : Prop :=
  all_chars (in_charset (p_set p)) t = true
  /\ quant_ok (p_quant p) (String.length t).

Fixpoint concat_str (parts : list string) : string :=
  match parts with
  | [] => EmptyString
  | t :: parts' => t ++ concat_str parts'
  end.

(** The groups of a match, given the text consumed by each piece. *)
Fixpoint captured (r : regex) (parts : list string) : list string :=
  match r, parts with
  | p :: r', t :: parts' =>
      if p_capture p then t :: captured r' parts' else captured r' parts'
  | _, _ => []
  end.

(** The period label of a record as the pattern sees it (line 57). *)
Definition period_label (r : gmap string cell) : string :=
  match str_strip (astype_str (at_col r "periodname")) with
  | Str s => s
  | _ => EmptyString
  end.

(** The label matches the fixed pattern. *)
Definition matches_period (r : gmap string cell) : Prop :=
  is_Some (search patterns_0 (period_label r)).


(** The text of an organisational cell after line 50. *)
Definition org_text (c : cell) : string :=
  match c with
  | NaN => "Unknown"
  | Str s => s
  | Int z => decimal z
  end.

(** The 7-tuple of a record after the fill. *)
Definition org_tuple (r : gmap string cell) : list string :=
  map (fun col => org_text (at_col r col)) org_cols.

Fixpoint join_underscore (parts : list string) : string :=
  match parts with
  | [] => EmptyString
  | [t] => t
  | t :: parts' => t ++ "_" ++ join_underscore parts'
  end.

Definition no_underscore (s : string) : Prop :=
  all_chars (fun c => negb (Ascii.eqb c "_")) s = true.

(** One pass of the loop of lines 48-50 over a record, for a header
    [header]. *)
Definition fill_record (header : list string) (r : gmap string cell)
    (cols : list string) : gmap string cell :=
  foldl (fun r col =>
           if bool_decide (col ∈ header)
           then <[col := astype_str (fillna (Str "Unknown") (at_col r col))]> r
           else r)
        r cols.

(** ** Sample inputs *)

(** Scenario A of the specification: Cases 12 against thresholds 8 and
    15. *)
Definition scenario_A : merged_row :=
  {| m_Facility_ID := Str "KP_Peshawar_BHU"; m_Disease := Str "Measles (New Cases)";
     m_Season := Str "Spring"; m_Cases := Some 12;
     m_Mean := Some (5#1)%Q; m_SD := Some (2#1)%Q;
     m_Threshold_95 := Some (8#1)%Q; m_Threshold_99 := Some (15#1)%Q |}.

(** A row above its Threshold_99 with no Threshold_95. *)
Definition no_baseline_95 : merged_row :=
  {| m_Facility_ID := Str "KP_Swat_RHC"; m_Disease := Str "Measles (New Cases)";
     m_Season := Str "Winter"; m_Cases := Some 40;
     m_Mean := None; m_SD := None;
     m_Threshold_95 := None; m_Threshold_99 := Some (15#1)%Q |}.

Definition week_15_record : gmap string cell :=
  {[ "periodname" := Str "Week 15 2024-04-08 - 2024-04-14" ]}.


(** Scenario B of the specification: HIV/AIDS in week 2. *)
Definition week_2_record : gmap string cell :=
  {[ "Facility_ID" := Str "KP_Swat_BHU";
     "periodname" := Str "Week 2 2024-01-08 - 2024-01-14";
     "HIV/AIDS (New Cases)" := Int 1 ]}.

Definition week_2_frame : DataFrame :=
  {| columns := ["Facility_ID"; "periodname"; "HIV/AIDS (New Cases)";
                 "Measles (New Cases)"];
     rows := [week_2_record] |}.

Definition org_record (l1 l2 : cell) : gmap string cell :=
  {[ "orgunitlevel1" := l1; "orgunitlevel2" := l2;
     "orgunitlevel3" := Str "c"; "orgunitlevel4" := NaN;
     "orgunitlevel5" := Str "e"; "orgunitlevel6" := Str "f";
     "organisationunitname" := Str "Basic Health Unit" ]}.

(** Two facilities whose first two levels differ only in where the
    underscore sits. *)
Definition underscore_frame : DataFrame :=
  {| columns := org_cols;
     rows := [org_record (Str "North_West") (Str "Swat");
              org_record (Str "North") (Str "West_Swat")] |}.

(** An upload without the column orgunitlevel6. *)
Definition frame_without_level6 : DataFrame :=
  {| columns := ["orgunitlevel1"; "orgunitlevel2"; "orgunitlevel3";
                 "orgunitlevel4"; "orgunitlevel5"; "organisationunitname";
                 "periodname"; "Measles (New Cases)"];
     rows := [ {[ "orgunitlevel1" := Str "KP"; "orgunitlevel2" := Str "Swat";
                  "orgunitlevel3" := Str "c"; "orgunitlevel4" := Str "d";
                  "orgunitlevel5" := Str "e";
                  "organisationunitname" := Str "Basic Health Unit";
                  "periodname" := Str "Week 15 2024-04-08 - 2024-04-14";
                  "Measles (New Cases)" := Int 12 ]} ] |}.

(** Two facilities without any underscore in their names. *)
Definition plain_frame : DataFrame :=
  {| columns := org_cols;
     rows := [org_record (Str "KP") (Str "Swat");
              org_record (Str "KP") (Str "Dir")] |}.

(** The Facility_ID column that lines 47-54 give to a frame. *)
Definition facility_ids (current_df : DataFrame) : result (list cell) :=
  try df <- build_facility_id current_df in
  Ok (map (fun r => at_col r "Facility_ID") (rows df)).

(** An upload of one facility and its thresholds, as in scenario A. *)
Definition upload_A : DataFrame :=
  {| columns := (org_cols ++ ["periodname"; "Measles (New Cases)"])%list;
     rows := [ <["periodname" := Str " Week 15 2024-04-08 - 2024-04-14 "]>
                 (<["Measles (New Cases)" := Int 12]>
                    (org_record (Str "KP") (Str "Swat")));
               <["periodname" := Str "2024-W15"]>
                 (<["Measles (New Cases)" := Int 90]>
                    (org_record (Str "KP") (Str "Dir"))) ] |}.

Definition thresholds_A : list threshold_row :=
  [ {| th_Facility_ID := Str "KP_Swat_c_Unknown_e_f_Basic Health Unit";
       th_Disease := Str "Measles (New Cases)"; th_Season := Str "Spring";
       th_Mean := Some (5#1)%Q; th_SD := Some (2#1)%Q;
       th_Threshold_95 := Some (8#1)%Q; th_Threshold_99 := Some (15#1)%Q |} ].

(** ** The page (lines 119-141) *)

(** [len(filtered_alerts[filtered_alerts['Alert_Level'] == level])] *)
Definition count_level (level : alert_level) (table : list alert_row) : nat :=
  length (filter (fun a => Alert_Level a = level) table).

(** What the page shows for a classified table. *)
Inductive screen :=
  | Full_Data (table : list alert_row)
  | Alerts_Generated (total high_count alert_count : nat)
      (table : list alert_row)
  | No_Alerts.

(** Lines 119-141: the table of line 116 is computed in both modes. *)
Definition render (show_all : bool) (min_deviation : Z)
    (alerts : list alert_row) : screen :=
  let filtered := filtered_alerts min_deviation alerts in
  if show_all then Full_Data (all_data alerts)
  else if negb (bool_decide (filtered = []))
  then Alerts_Generated (length filtered)
         (count_level High_Alert filtered) (count_level Alert filtered)
         filtered
  else No_Alerts.

(** ** More vocabulary *)

(** The observation inside a merged row. *)
Definition observation_of (m : merged_row) : long_row :=
  {| l_Facility_ID := m_Facility_ID m; l_Season := m_Season m;
     l_Disease := m_Disease m; l_Cases := m_Cases m |}.

(** The join key of a thresholds row. *)
Definition th_key (t : threshold_row) : cell * cell * cell :=
  (th_Facility_ID t, th_Disease t, th_Season t).

(** The thresholds rows that an observation joins. *)
Definition matches_of (l : long_row) (thresholds : list threshold_row)
    : list threshold_row :=
  filter (fun t => key_match l t = true) thresholds.

(** A run of decimal digits. *)
Definition digit_run (s : string) : Prop := all_chars is_digit s = true.

(** The texts that the period pattern matches from their first character:
    "Week w yyyy-mm-dd - yyyy-mm-dd" with digit runs of the given
    lengths. *)
Definition period_text (week year m1 d1 year2 m2 d2 : string) : string :=
  "Week " ++ week ++ " " ++ year ++ "-" ++ m1 ++ "-" ++ d1 ++ " - "
  ++ year2 ++ "-" ++ m2 ++ "-" ++ d2.

Definition period_fields (week year m1 d1 year2 m2 d2 : string) : Prop :=
  (digit_run week /\ (1 <= String.length week)%nat)
  /\ (digit_run year /\ String.length year = 4%nat)
  /\ (digit_run m1 /\ String.length m1 = 2%nat)
  /\ (digit_run d1 /\ String.length d1 = 2%nat)
  /\ (digit_run year2 /\ String.length year2 = 4%nat)
  /\ (digit_run m2 /\ String.length m2 = 2%nat)
  /\ (digit_run d2 /\ String.length d2 = 2%nat).

(** Two rows against thresholds 8 and 15: 14 cases and 16 cases. *)
Definition cases_against_8_15 (cases : Z) : merged_row :=
  {| m_Facility_ID := Str "KP_Swat_BHU"; m_Disease := Str "Measles (New Cases)";
     m_Season := Str "Spring"; m_Cases := Some cases;
     m_Mean := None; m_SD := None;
     m_Threshold_95 := Some (8#1)%Q; m_Threshold_99 := Some (15#1)%Q |}.

(** The frame of lines 47-54 when the header has the seven columns. *)
Definition with_facility_id (current_df : DataFrame) : DataFrame :=
  {| columns := add_column (columns current_df) "Facility_ID";
     rows := map (fun r =>
                    <["Facility_ID" := Str (join_underscore (org_tuple r))]>
                      (fill_record (columns current_df) r org_cols))
                 (rows current_df) |}.

(** A label inside the limits of the model: an ASCII text whose week, when
    the pattern is found, has at most 15 digits. *)
Definition label_modelled (r : gmap string cell) : bool :=
  ascii_text (period_label r)
  && match search patterns_0 (period_label r) with
     | Some (week :: _) => (String.length week <=? 15)%nat
     | _ => true
     end.




(** Position by position, what line 99 does to a row. *)
Definition overridden (l l' : long_row) : Prop :=
  l_Facility_ID l' = l_Facility_ID l
  /\ l_Disease l' = l_Disease l
  /\ l_Cases l' = l_Cases l
  /\ (l_Disease l ∈ map Str year_round_diseases ->
      l_Season l' = Str "Year-Round")
  /\ (l_Disease l ∉ map Str year_round_diseases ->
      l_Season l' = l_Season l).


(** An upload with its seven columns and no period column. *)
Definition frame_without_periodname : DataFrame :=
  {| columns := (org_cols ++ ["Measles (New Cases)"])%list;
     rows := [ <["Measles (New Cases)" := Int 3]>
                 (org_record (Str "KP") (Str "Swat")) ] |}.


(* ================================================================== *)
(** * Theorems *)

(** ** Numeric comparisons *)

Lemma Qltb_lt (x y : Q) : Qltb x y = true <-> (x < y)%Q.
Proof.
  unfold Qltb. rewrite negb_true_iff. split.
  - intros H. apply Qnot_le_lt. intros Hle.
    apply Qle_bool_iff in Hle. congruence.
  - intros H. destruct (Qle_bool y x) eqn:E; [|reflexivity].
    apply Qle_bool_iff in E. exfalso. apply (Qlt_not_le _ _ H E).
Qed.

Lemma num_gt_exceeds cases t : num_gt cases t = true <-> exceeds cases t.
Proof.
  unfold num_gt, exceeds. split.
  - destruct cases as [c|], t as [q|]; try discriminate.
    intros H. exists c, q. rewrite Qltb_lt in H. auto.
  - intros (c & q & -> & -> & H). by apply Qltb_lt.
Qed.

Lemma num_gt_notna cases t : num_gt cases t = true -> notna t = true.
Proof. destruct cases, t; simpl; congruence. Qed.

Lemma num_ge_at_least d m : num_ge d m = true <-> at_least d m.
Proof.
  unfold num_ge, at_least. split.
  - destruct d as [q|]; [|discriminate].
    intros H. exists q. by rewrite <- Qle_bool_iff.
  - intros (q & -> & H). by apply Qle_bool_iff.
Qed.

Lemma notna_true {A} (x : option A) : notna x = true <-> x <> None.
Proof. destruct x; simpl; split; congruence. Qed.

(** The three branches of the classifier, by the two comparisons, and its
    monotonicity, for thresholds fixed once and for all. *)
Section Thresholds.

Variables t95 t99 : option Q.

Lemma alert_level_high cases :
  exceeds cases t99 -> alert_level_of cases t95 t99 = High_Alert.
Proof.
  intros H. apply num_gt_exceeds in H. unfold alert_level_of.
  by rewrite H, (num_gt_notna _ _ H).
Qed.

Lemma alert_level_alert cases :
  ~ exceeds cases t99 -> exceeds cases t95 ->
  alert_level_of cases t95 t99 = Alert.
Proof.
  intros H99 H95. rewrite <- num_gt_exceeds in H99.
  apply num_gt_exceeds in H95. unfold alert_level_of.
  destruct (num_gt cases t99); [by destruct H99|].
  by rewrite H95, (num_gt_notna _ _ H95).
Qed.

Lemma alert_level_normal cases :
  ~ exceeds cases t99 -> ~ exceeds cases t95 ->
  alert_level_of cases t95 t99 = Normal.
Proof.
  intros H99 H95. rewrite <- num_gt_exceeds in H99, H95.
  unfold alert_level_of.
  destruct (num_gt cases t99); [by destruct H99|].
  destruct (num_gt cases t95); [by destruct H95|]. reflexivity.
Qed.

Lemma alert_level_cases cases :
  (exceeds cases t99 /\ alert_level_of cases t95 t99 = High_Alert)
  \/ (~ exceeds cases t99 /\ exceeds cases t95
      /\ alert_level_of cases t95 t99 = Alert)
  \/ (~ exceeds cases t99 /\ ~ exceeds cases t95
      /\ alert_level_of cases t95 t99 = Normal).
Proof.
  destruct (num_gt cases t99) eqn:E99.
  - left. apply num_gt_exceeds in E99. eauto using alert_level_high.
  - assert (~ exceeds cases t99) as N99
      by (rewrite <- num_gt_exceeds; congruence).
    destruct (num_gt cases t95) eqn:E95.
    + right; left. apply num_gt_exceeds in E95.
      eauto using alert_level_alert.
    + right; right.
      assert (~ exceeds cases t95) as N95
        by (rewrite <- num_gt_exceeds; congruence).
      eauto using alert_level_normal.
Qed.

Lemma exceeds_mono (c1 c2 : Z) (t : option Q) :
  c1 <= c2 -> exceeds (Some c1) t -> exceeds (Some c2) t.
Proof.
  intros Hle (c & q & [= <-] & -> & H). exists c2, q. repeat split.
  eapply Qlt_le_trans; [exact H|]. by rewrite <- Zle_Qle.
Qed.

(** C8: for fixed thresholds (present or missing), raising Cases never
    lowers the level in the order Normal < Alert < High Alert. *)
Theorem alert_level_monotone (cases1 cases2 : option Z) :
  num_le cases1 cases2 ->
  (level_rank (alert_level_of cases1 t95 t99)
   <= level_rank (alert_level_of cases2 t95 t99))%nat.
Proof.
  destruct cases1 as [c1|], cases2 as [c2|]; cbn; try done.
  intros Hle.
  destruct (alert_level_cases (Some c1)) as [(H & ->)|[(N & H & ->)|(N99 & N95 & ->)]].
  - rewrite (alert_level_high _ (exceeds_mono _ _ _ Hle H)). done.
  - destruct (alert_level_cases (Some c2))
      as [(_ & ->)|[(_ & _ & ->)|(_ & N95 & _)]]; cbn; try lia.
    destruct N95. by apply (exceeds_mono c1).
  - cbn. lia.
Qed.

End Thresholds.

(** ** The alert classifier *)



Lemma alert_level_monotone_witness :
  (level_rank (alert_level_of (Some 9%Z) (Some (8#1)%Q) (Some (15#1)%Q))
   <= level_rank (alert_level_of (Some 16%Z) (Some (8#1)%Q) (Some (15#1)%Q)))%nat.
Proof.
  apply (alert_level_monotone (Some (8#1)%Q) (Some (15#1)%Q) (Some 9) (Some 16)).
  cbn. lia.
Defined.

(** ** The report selector *)

Lemma alert_mask_spec (min_deviation : Z) (a : alert_row) :
  alert_mask min_deviation a = true <->
  Alert_Level a <> Normal /\ Threshold_95 a <> None
  /\ at_least (Deviation a) min_deviation.
Proof.
  unfold alert_mask.
  rewrite !andb_true_iff, bool_decide_eq_true, notna_true, num_ge_at_least.
  tauto.
Qed.

Lemma elem_of_filtered_alerts (min_deviation : Z) (alerts : list alert_row) a :
  a ∈ filtered_alerts min_deviation alerts <->
  a ∈ alerts /\ Alert_Level a <> Normal /\ Threshold_95 a <> None
  /\ at_least (Deviation a) min_deviation.
Proof.
  unfold filtered_alerts. rewrite list_elem_of_filter, alert_mask_spec. tauto.
Qed.

Lemma elem_of_all_data (alerts : list alert_row) a :
  a ∈ all_data alerts <-> a ∈ alerts /\ Threshold_95 a <> None.
Proof.
  unfold all_data. rewrite list_elem_of_filter, notna_true. tauto.
Qed.

Lemma classified_deviation (m : merged_row) :
  (Alert_Level (classify m) = High_Alert ->
     Deviation (classify m) = num_sub (m_Cases m) (m_Threshold_99 m))
  /\ (Alert_Level (classify m) = Alert ->
     Deviation (classify m) = num_sub (m_Cases m) (m_Threshold_95 m)).
Proof. cbn. split; intros ->; reflexivity. Qed.

(** C2: in default mode, for min_deviation >= 1, a classified row is in the
    output exactly when its level is not Normal, its Threshold_95 is present
    and its Deviation is at least min_deviation; a row with no thresholds is
    never in the output, whatever its Cases. *)
Theorem default_mode_selection (min_deviation : Z) (merged : list merged_row)
    (a : alert_row) :
  1 <= min_deviation ->
  let alerts := classify_all merged in
  let output := report false min_deviation alerts in
  (a ∈ output <->
     a ∈ alerts /\ Alert_Level a <> Normal /\ Threshold_95 a <> None
     /\ at_least (Deviation a) min_deviation)
  /\ (Threshold_95 a = None -> Threshold_99 a = None -> a ∉ output)
  /\ (a ∈ output ->
      (Alert_Level a = High_Alert /\
       Deviation a = num_sub (Cases a) (Threshold_99 a))
      \/ (Alert_Level a = Alert /\
          Deviation a = num_sub (Cases a) (Threshold_95 a))).
Proof.
  intros _ alerts output. subst output. cbn [report].
  split; [apply elem_of_filtered_alerts|]. split.
  - intros H95 _ Hin. apply elem_of_filtered_alerts in Hin. tauto.
  - intros Hin. apply elem_of_filtered_alerts in Hin.
    destruct Hin as (Hin & Hlvl & _).
    apply list_elem_of_fmap in Hin as (m & -> & _).
    destruct (classified_deviation m) as [Hh Ha].
    destruct (Alert_Level (classify m)) eqn:E; [done|right|left]; auto.
Qed.

Lemma default_mode_selection_witness :
  (classify scenario_A ∈ report false 3 (classify_all [scenario_A]))
  /\ (classify scenario_A ∉ report false 5 (classify_all [scenario_A])).
Proof.
  assert (1 <= 3) as H3 by lia. assert (1 <= 5) as H5 by lia.
  pose proof (default_mode_selection 3 [scenario_A] (classify scenario_A) H3)
    as [Hshown _].
  pose proof (default_mode_selection 5 [scenario_A] (classify scenario_A) H5)
    as [Hhidden _].
  split.
  - apply Hshown.
    split; [apply list_elem_of_singleton; reflexivity|].
    split; [discriminate|]. split; [discriminate|].
    eexists; split; [reflexivity|]. discriminate.
  - intros Hin. apply Hhidden in Hin.
    destruct Hin as (_ & _ & _ & q & [= <-] & Hle). by apply Hle.
Defined.

(** C9: with show_all the output is exactly the classified rows whose
    Threshold_95 is present, whatever their level and whatever
    min_deviation; every row of the default output is in the show_all
    output, and no row of the default output is Normal. *)
Theorem show_all_selection (min_deviation min_deviation' : Z)
    (merged : list merged_row) :
  let alerts := classify_all merged in
  report true min_deviation alerts
    = filter (fun a => is_Some (Threshold_95 a)) alerts
  /\ report true min_deviation alerts = report true min_deviation' alerts
  /\ (forall a, a ∈ report true min_deviation alerts <->
        a ∈ alerts /\ Threshold_95 a <> None)
  /\ report false min_deviation alerts
       `sublist_of` report true min_deviation' alerts
  /\ (forall a, a ∈ report false min_deviation alerts ->
        a ∈ report true min_deviation' alerts)
  /\ (forall a, a ∈ report false min_deviation alerts ->
        Alert_Level a <> Normal).
Proof.
  intros alerts. cbn [report]. generalize alerts. clear. intros alerts.
  assert (filtered_alerts min_deviation alerts `sublist_of` all_data alerts)
    as Hsub.
  { unfold filtered_alerts, all_data.
    induction alerts as [|a l IH]; [constructor|].
    rewrite !filter_cons. repeat case_decide.
    - by apply sublist_skip.
    - exfalso. apply alert_mask_spec in H. rewrite <- notna_true in H. tauto.
    - by apply sublist_cons.
    - done. }
  split; [|split; [done|split; [|split; [done|split]]]].
  - unfold all_data. apply list_filter_iff. intros a.
    destruct (Threshold_95 a); cbn; split; done.
  - apply elem_of_all_data.
  - intros a Ha. eapply elem_of_sublist; eauto.
  - intros a Ha. apply elem_of_filtered_alerts in Ha. tauto.
Qed.

Lemma show_all_selection_witness :
  classify scenario_A ∈ report true 7 (classify_all [scenario_A]).
Proof.
  destruct (show_all_selection 3 7 [scenario_A]) as (_ & _ & _ & _ & H & _).
  apply H. apply elem_of_filtered_alerts.
  split; [apply list_elem_of_singleton; reflexivity|].
  split; [discriminate|]. split; [discriminate|].
  eexists; split; [reflexivity|]. discriminate.
Defined.

(** C10: a row above a present Threshold_99 whose Threshold_95 is missing is
    classified High Alert, and is in neither the default output nor the
    show_all output. *)
Theorem high_alert_without_threshold_95 (merged : list merged_row)
    (m : merged_row) (show_all : bool) (min_deviation : Z) (c : Z) (q : Q) :
  m ∈ merged ->
  m_Cases m = Some c -> m_Threshold_99 m = Some q -> (q < inject_Z c)%Q ->
  m_Threshold_95 m = None ->
  classify m ∈ classify_all merged
  /\ Alert_Level (classify m) = High_Alert
  /\ classify m ∉ report show_all min_deviation (classify_all merged).
Proof.
  intros Hin Hc H99 Hlt H95. split; [|split].
  - by apply list_elem_of_fmap_2.
  - cbn. rewrite Hc, H99. apply alert_level_high. by exists c, q.
  - destruct show_all; cbn [report].
    + rewrite elem_of_all_data. cbn. tauto.
    + rewrite elem_of_filtered_alerts. cbn. tauto.
Qed.

Lemma high_alert_without_threshold_95_witness :
  Alert_Level (classify no_baseline_95) = High_Alert
  /\ (classify no_baseline_95 ∉ report true 1 (classify_all [no_baseline_95]))
  /\ (classify no_baseline_95 ∉ report false 1 (classify_all [no_baseline_95])).
Proof.
  assert (no_baseline_95 ∈ [no_baseline_95]) as Hin
    by (apply list_elem_of_singleton; reflexivity).
  assert (((15#1) < inject_Z 40)%Q) as Hlt by reflexivity.
  split; [|split].
  - apply (high_alert_without_threshold_95 [no_baseline_95] no_baseline_95
             true 1 40 (15#1)%Q Hin eq_refl eq_refl Hlt eq_refl).
  - apply (high_alert_without_threshold_95 [no_baseline_95] no_baseline_95
             true 1 40 (15#1)%Q Hin eq_refl eq_refl Hlt eq_refl).
  - apply (high_alert_without_threshold_95 [no_baseline_95] no_baseline_95
             false 1 40 (15#1)%Q Hin eq_refl eq_refl Hlt eq_refl).
Defined.

(** ** Texts and the matcher *)

Lemma str_app_cons (c : ascii) (s t : string) :
  String c s ++ t = String c (s ++ t).
Proof. reflexivity. Qed.

Lemma str_app_nil_l (s : string) : "" ++ s = s.
Proof. reflexivity. Qed.

Lemma str_app_assoc (s t u : string) : (s ++ t) ++ u = s ++ (t ++ u).
Proof.
  induction s as [|c s IH]; [reflexivity|].
  by rewrite !str_app_cons, IH.
Qed.

Lemma take_drop_str (n : nat) (s : string) : take_str n s ++ drop_str n s = s.
Proof.
  revert s. induction n as [|n IH]; intros [|c s]; cbn; try reflexivity.
  by rewrite str_app_cons, IH.
Qed.

Lemma take_span (cs : charset) (s : string) (n : nat) :
  (n <= span cs s)%nat ->
  all_chars (in_charset cs) (take_str n s) = true
  /\ String.length (take_str n s) = n.
Proof.
  revert s. induction n as [|n IH]; intros s Hn.
  - by destruct s.
  - destruct s as [|c s]; cbn in Hn; [lia|].
    destruct (in_charset cs c) eqn:E; [|lia].
    destruct (IH s ltac:(lia)) as [H1 H2]. cbn. by rewrite E, H1, H2.
Qed.

Lemma first_some_Some {A B} (f : A -> option B) (l : list A) (y : B) :
  first_some f l = Some y -> exists x, x ∈ l /\ f x = Some y.
Proof.
  induction l as [|x l IH]; cbn; [done|].
  destruct (f x) as [z|] eqn:E.
  - intros [= <-]. exists x. split; [left|done].
  - intros H. destruct (IH H) as (x' & Hin & Hx'). exists x'.
    split; [by right|done].
Qed.

Lemma candidates_spec (q : quantifier) (k n : nat) :
  n ∈ candidates q k -> (n <= k)%nat /\ quant_ok q n.
Proof.
  destruct q as [|m|]; unfold candidates.
  - destruct (Nat.leb_spec 1 k); [|by intros ?%elem_of_nil].
    intros ->%list_elem_of_singleton. done.
  - destruct (Nat.leb_spec m k); [|by intros ?%elem_of_nil].
    intros ->%list_elem_of_singleton. done.
  - rewrite list_elem_of_In, <- in_rev, in_seq. cbn. lia.
Qed.

(** Soundness of the matcher: a match splits the text into one part per
    piece, each allowed by its piece, followed by the unread rest. *)
Lemma match_here_sound (r : regex) (s : string) (groups : list string) :
  match_here r s = Some groups ->
  exists parts rest,
    Forall2 piece_ok r parts /\ s = concat_str parts ++ rest
    /\ groups = captured r parts.
Proof.
  revert s groups. induction r as [|p r IH]; intros s groups; cbn.
  - intros [= <-]. exists [], s. by repeat split.
  - intros H. apply first_some_Some in H as (n & Hn & H).
    apply candidates_spec in Hn as [Hle Hq].
    destruct (match_here r (drop_str n s)) as [gs|] eqn:E; [|done].
    injection H as <-.
    destruct (IH _ _ E) as (parts & rest & Hparts & Hs & ->).
    destruct (take_span _ _ _ Hle) as [Hall Hlen].
    exists (take_str n s :: parts), rest. split; [|split].
    + constructor; [|done]. split; [done|]. by rewrite Hlen.
    + cbn. by rewrite str_app_assoc, <- Hs, take_drop_str.
    + reflexivity.
Qed.

Lemma captured_ok (r : regex) (parts : list string) :
  Forall2 piece_ok r parts ->
  Forall2 piece_ok (List.filter p_capture r) (captured r parts).
Proof.
  induction 1 as [|p t r parts Hp _ IH]; cbn; [constructor|].
  destruct (p_capture p); [by constructor|done].
Qed.

Lemma search_Some (r : regex) (s : string) (groups : list string) :
  search r s = Some groups ->
  exists before parts rest,
    Forall2 piece_ok r parts /\ s = before ++ concat_str parts ++ rest
    /\ groups = captured r parts.
Proof.
  induction s as [|c s IH]; cbn.
  - destruct (match_here r "") as [gs|] eqn:E; [|done].
    intros [= <-]. apply match_here_sound in E as (parts & rest & ? & ? & ?).
    by exists "", parts, rest.
  - destruct (match_here r (String c s)) as [gs|] eqn:E.
    + intros [= <-]. apply match_here_sound in E as (parts & rest & ? & ? & ?).
      by exists "", parts, rest.
    + intros H. destruct (IH H) as (before & parts & rest & ? & -> & ?).
      by exists (String c before), parts, rest.
Qed.

Lemma span_app (cs : charset) (t u : string) :
  all_chars (in_charset cs) t = true ->
  (String.length t <= span cs (t ++ u))%nat.
Proof.
  induction t as [|c t IH]; cbn [all_chars String.length]; [lia|].
  intros [Hc Ht]%andb_true_iff. rewrite str_app_cons. cbn [span].
  rewrite Hc. specialize (IH Ht). lia.
Qed.

Lemma drop_str_app (t u : string) : drop_str (String.length t) (t ++ u) = u.
Proof. induction t as [|c t IH]; [by destruct u|]. by rewrite str_app_cons. Qed.

Lemma take_str_app (t u : string) : take_str (String.length t) (t ++ u) = t.
Proof.
  induction t as [|c t IH]; [by destruct u|].
  rewrite str_app_cons. cbn. by rewrite IH.
Qed.

Lemma candidates_complete (q : quantifier) (k n : nat) :
  (n <= k)%nat -> quant_ok q n -> n ∈ candidates q k.
Proof.
  destruct q as [|m|]; unfold candidates; cbn [quant_ok].
  - intros Hk ->. destruct (Nat.leb_spec 1 k); [|lia].
    by apply list_elem_of_singleton.
  - intros Hk ->. destruct (Nat.leb_spec m k); [|lia].
    by apply list_elem_of_singleton.
  - intros Hk Hn. rewrite list_elem_of_In, <- in_rev, in_seq. lia.
Qed.

Lemma first_some_is_Some {A B} (f : A -> option B) (l : list A) (x : A) :
  x ∈ l -> is_Some (f x) -> is_Some (first_some f l).
Proof.
  induction l as [|y l IH]; [by intros ?%elem_of_nil|].
  intros [->|Hin]%elem_of_cons Hx; cbn.
  - destruct Hx as [z ->]. by eexists.
  - destruct (f y); [by eexists|]. by apply IH.
Qed.

(** Completeness of the matcher: when the text starts with parts that the
    pieces allow, the backtracking finds a match. *)
Lemma match_here_complete (r : regex) (parts : list string) (rest : string) :
  Forall2 piece_ok r parts ->
  is_Some (match_here r (concat_str parts ++ rest)).
Proof.
  induction 1 as [|p t r parts [Hall Hq] _ IH]; cbn [match_here concat_str].
  - by eexists.
  - rewrite str_app_assoc.
    apply (first_some_is_Some _ _ (String.length t)).
    + apply candidates_complete; [|done]. by apply span_app.
    + rewrite drop_str_app. destruct IH as [groups ->]. by eexists.
Qed.

Lemma search_here (r : regex) (s : string) (groups : list string) :
  match_here r s = Some groups -> search r s = Some groups.
Proof. intros H. destruct s; cbn; by rewrite H. Qed.

(** [search] finds a match exactly when the text contains one. *)
Lemma search_is_Some (r : regex) (s : string) :
  is_Some (search r s) <->
  exists before parts rest,
    Forall2 piece_ok r parts /\ s = before ++ concat_str parts ++ rest.
Proof.
  split.
  - intros [groups H].
    apply search_Some in H as (before & parts & rest & ? & ? & _).
    by exists before, parts, rest.
  - intros (before & parts & rest & Hparts & ->).
    pose proof (match_here_complete r parts rest Hparts) as [groups Hm].
    induction before as [|c before IH].
    + rewrite str_app_nil_l, (search_here _ _ _ Hm). by eexists.
    + rewrite str_app_cons. cbn [search].
      destruct (match_here r (String c _)); [by eexists|]. exact IH.
Qed.

(** The groups of the period pattern: a non-empty digit run and a run of
    exactly four digits. *)
Lemma patterns_0_groups (s : string) (groups : list string) :
  search patterns_0 s = Some groups ->
  exists week year,
    groups = [week; year]
    /\ all_chars is_digit week = true /\ (1 <= String.length week)%nat
    /\ all_chars is_digit year = true /\ String.length year = 4%nat.
Proof.
  intros H. apply search_Some in H as (_ & parts & _ & Hparts & _ & ->).
  apply captured_ok in Hparts. cbn in Hparts.
  inversion Hparts as [|p1 week r1 l1 [Hw1 Hw2] Hrest]; subst.
  inversion Hrest as [|p2 year r2 l2 [Hy1 Hy2] Hnil]; subst.
  inversion Hnil; subst. exists week, year. cbn in *. done.
Qed.



(** ** Records *)

Lemma at_col_insert_eq (r : gmap string cell) (col : string) (v : cell) :
  at_col (<[col := v]> r) col = v.
Proof. unfold at_col. by rewrite lookup_insert_eq. Qed.

Lemma at_col_insert_ne (r : gmap string cell) (col col' : string) (v : cell) :
  col <> col' -> at_col (<[col := v]> r) col' = at_col r col'.
Proof. intros H. unfold at_col. by rewrite lookup_insert_ne. Qed.

(** ** Lists of results and headers *)

Lemma map_result_length {A B} (f : A -> result B) (l : list A) (l' : list B) :
  map_result f l = Ok l' -> length l' = length l.
Proof.
  revert l'. induction l as [|x l IH]; intros l'; cbn.
  - by intros [= <-].
  - destruct (f x); [|done]. cbn.
    destruct (map_result f l) as [ys|]; [|done]. cbn.
    intros [= <-]. cbn. by rewrite (IH ys).
Qed.

Lemma disease_cols_week_year (cols : list string) :
  filter (fun col => is_disease_col col = true) (cols ++ ["Week"; "Year"])%list
  = filter (fun col => is_disease_col col = true) cols.
Proof. rewrite filter_app. cbn. apply app_nil_r. Qed.

(** ** Seasons *)

(** C4: the season is a total function of the week: 9 Winter, 10 and 20
    Spring, 21 and 35 Summer, 36 and 43 Autumn, 44 Winter; weeks 10-20 are
    Spring, 21-35 Summer, 36-43 Autumn and every other week Winter. *)
Theorem assign_season_ranges :
  assign_season (Some 9) = "Winter"
  /\ assign_season (Some 10) = "Spring"
  /\ assign_season (Some 20) = "Spring"
  /\ assign_season (Some 21) = "Summer"
  /\ assign_season (Some 35) = "Summer"
  /\ assign_season (Some 36) = "Autumn"
  /\ assign_season (Some 43) = "Autumn"
  /\ assign_season (Some 44) = "Winter"
  /\ (forall week, 10 <= week <= 20 -> assign_season (Some week) = "Spring")
  /\ (forall week, 21 <= week <= 35 -> assign_season (Some week) = "Summer")
  /\ (forall week, 36 <= week <= 43 -> assign_season (Some week) = "Autumn")
  /\ (forall week, week < 10 \/ 43 < week ->
        assign_season (Some week) = "Winter")
  /\ (forall week : option Z,
        assign_season week
        ∈ ["Spring"; "Summer"; "Autumn"; "Winter"; "Unknown"]).
Proof.
  assert (forall week, 10 <= week <= 20 -> assign_season (Some week) = "Spring")
    as Hspring.
  { intros week H. unfold assign_season.
    destruct (Z.leb_spec 10 week), (Z.leb_spec week 20); done || lia. }
  assert (forall week, 21 <= week <= 35 -> assign_season (Some week) = "Summer")
    as Hsummer.
  { intros week H. unfold assign_season.
    destruct (Z.leb_spec 10 week), (Z.leb_spec week 20),
      (Z.leb_spec 21 week), (Z.leb_spec week 35); done || lia. }
  assert (forall week, 36 <= week <= 43 -> assign_season (Some week) = "Autumn")
    as Hautumn.
  { intros week H. unfold assign_season.
    destruct (Z.leb_spec 10 week), (Z.leb_spec week 20),
      (Z.leb_spec 21 week), (Z.leb_spec week 35),
      (Z.leb_spec 36 week), (Z.leb_spec week 43); done || lia. }
  assert (forall week, week < 10 \/ 43 < week ->
            assign_season (Some week) = "Winter") as Hwinter.
  { intros week H. unfold assign_season.
    destruct (Z.leb_spec 10 week), (Z.leb_spec week 20),
      (Z.leb_spec 21 week), (Z.leb_spec week 35),
      (Z.leb_spec 36 week), (Z.leb_spec week 43); done || lia. }
  repeat split; try reflexivity; try assumption.
  intros [week|]; [|set_solver].
  destruct (Z_lt_le_dec week 10); [rewrite Hwinter by lia; set_solver|].
  destruct (Z_le_gt_dec week 20); [rewrite Hspring by lia; set_solver|].
  destruct (Z_le_gt_dec week 35); [rewrite Hsummer by lia; set_solver|].
  destruct (Z_le_gt_dec week 43); [rewrite Hautumn by lia; set_solver|].
  rewrite Hwinter by lia. set_solver.
Qed.

Lemma assign_season_ranges_witness : assign_season (Some 15) = "Spring".
Proof.
  destruct assign_season_ranges as (_ & _ & _ & _ & _ & _ & _ & _ & H & _).
  apply (H 15). lia.
Defined.

(** ** The allowlist and the disease columns *)

Lemma isin_true (disease : string) (values : list string) :
  isin (Str disease) values = true <-> disease ∈ values.
Proof.
  unfold isin. rewrite bool_decide_eq_true, list_elem_of_In, in_map_iff.
  rewrite list_elem_of_In. split.
  - by intros (d & [= ->] & ?).
  - intros H. by exists disease.
Qed.

Lemma map_result_Forall2 {A B} (f : A -> result B) (l : list A) (l' : list B) :
  map_result f l = Ok l' -> Forall2 (fun x y => f x = Ok y) l l'.
Proof.
  revert l'. induction l as [|x l IH]; intros l'; cbn.
  - intros [= <-]. constructor.
  - destruct (f x) as [y|] eqn:E; [|done]. cbn.
    destruct (map_result f l) as [ys|]; [|done]. cbn.
    intros [= <-]. constructor; [done|]. by apply IH.
Qed.

Lemma not_disease_col (df : DataFrame) (col : string) :
  is_disease_col col = false -> col ∉ disease_cols df.
Proof.
  intros H Hin. unfold disease_cols in Hin.
  apply list_elem_of_filter in Hin as [Hin _]. congruence.
Qed.

(** ** Facility_ID *)

Lemma fill_org_cols_unfold (df : DataFrame) (cols : list string) :
  foldl (fun df col =>
           if has_column df col
           then assign df col
                  (fun r => astype_str (fillna (Str "Unknown") (at_col r col)))
           else df)
        df cols
  = {| columns := columns df;
       rows := map (fun r => fill_record (columns df) r cols) (rows df) |}.
Proof.
  revert df. induction cols as [|col cols IH]; intros [header records].
  - cbn. f_equal. induction records as [|r l IHl]; [done|].
    cbn. by rewrite <- IHl.
  - cbn [foldl]. rewrite IH.
    assert (has_column {| columns := header; rows := records |} col
            = bool_decide (col ∈ header)) as Hcol by reflexivity.
    rewrite Hcol. unfold assign, add_column. cbn [columns rows].
    destruct (bool_decide (col ∈ header)) eqn:E; cbn [columns rows].
    + f_equal. rewrite map_map. apply map_ext. intros r.
      unfold fill_record. cbn [foldl]. by rewrite E.
    + f_equal. apply map_ext. intros r.
      unfold fill_record. cbn [foldl]. by rewrite E.
Qed.

Lemma fill_record_other (header : list string) (r : gmap string cell)
    (cols : list string) (col : string) :
  col ∉ cols -> at_col (fill_record header r cols) col = at_col r col.
Proof.
  revert r. induction cols as [|c cols IH]; intros r Hnot; [done|].
  apply not_elem_of_cons in Hnot as [Hne Hnot].
  unfold fill_record. cbn [foldl]. fold (fill_record header).
  destruct (bool_decide (c ∈ header)).
  - change (foldl _ ?r0 cols) with (fill_record header r0 cols).
    rewrite IH by done. by rewrite at_col_insert_ne.
  - change (foldl _ ?r0 cols) with (fill_record header r0 cols). by apply IH.
Qed.

Lemma fill_record_at (header : list string) (r : gmap string cell)
    (cols : list string) (col : string) :
  NoDup cols -> col ∈ cols -> col ∈ header ->
  at_col (fill_record header r cols) col = Str (org_text (at_col r col)).
Proof.
  revert r. induction cols as [|c cols IH]; intros r Hnd Hin Hh.
  - by apply elem_of_nil in Hin.
  - apply NoDup_cons in Hnd as [Hc Hnd].
    unfold fill_record. cbn [foldl].
    change (foldl _ ?r0 cols) with (fill_record header r0 cols).
    apply elem_of_cons in Hin as [->|Hin].
    + rewrite bool_decide_eq_true_2 by done.
      rewrite fill_record_other by done. rewrite at_col_insert_eq.
      by destruct (at_col r c).
    + assert (c <> col) by (intros ->; done).
      destruct (bool_decide (c ∈ header)).
      * rewrite IH by done. by rewrite at_col_insert_ne.
      * by apply IH.
Qed.

Lemma org_cols_NoDup : NoDup org_cols.
Proof. apply (bool_decide_unpack (NoDup org_cols)). vm_compute. exact I. Qed.

Lemma require_columns_Ok (df : DataFrame) (cols : list string) :
  require_columns df cols = Ok tt <-> forall col, col ∈ cols -> col ∈ columns df.
Proof.
  induction cols as [|c cols IH]; cbn.
  - split; [|done]. intros _ col H. by apply elem_of_nil in H.
  - unfold has_column at 1. destruct (bool_decide (c ∈ columns df)) eqn:E.
    + apply bool_decide_eq_true in E. rewrite IH. split.
      * intros H col [->|Hin]%elem_of_cons; [done|by apply H].
      * intros H col Hin. apply H. by right.
    + apply bool_decide_eq_false in E. split; [done|].
      intros H. destruct E. apply H. by left.
Qed.

Lemma require_columns_Raise (df : DataFrame) (cols : list string) (e : exn) :
  require_columns df cols = Raise e ->
  exists col, e = KeyError col /\ col ∈ cols /\ col ∉ columns df.
Proof.
  induction cols as [|c cols IH]; cbn; [done|].
  unfold has_column at 1. destruct (bool_decide (c ∈ columns df)) eqn:E.
  - intros H. destruct (IH H) as (col & ? & ? & ?). exists col.
    split; [done|]. split; [by right|done].
  - apply bool_decide_eq_false in E. intros [= <-]. exists c.
    split; [done|]. split; [by left|done].
Qed.

(** The sum of lines 51-54 over a filled record. *)
Lemma facility_id_of_filled (header : list string) (r : gmap string cell) :
  (forall col, col ∈ org_cols -> col ∈ header) ->
  facility_id_of (fill_record header r org_cols)
  = Ok (Str (join_underscore (org_tuple r))).
Proof.
  intros Hall. unfold facility_id_of.
  rewrite !(fill_record_at header r org_cols)
    by (apply org_cols_NoDup || (unfold org_cols; set_solver)
        || (apply Hall; unfold org_cols; set_solver)).
  cbn. unfold org_tuple, org_cols. cbn [map join_underscore].
  by rewrite !str_app_assoc.
Qed.

Lemma map_result_map {A B C} (f : B -> result C) (h : A -> B) (g : A -> C)
    (l : list A) :
  (forall x, f (h x) = Ok (g x)) -> map_result f (map h l) = Ok (map g l).
Proof.
  intros H. induction l as [|x l IH]; [done|].
  cbn. by rewrite H, IH.
Qed.

(** The frame that lines 47-54 build when the header has the seven
    columns. *)
Lemma build_facility_id_Ok (current_df df' : DataFrame) :
  build_facility_id current_df = Ok df' <->
  (forall col, col ∈ org_cols -> col ∈ columns current_df)
  /\ df' = {| columns := add_column (columns current_df) "Facility_ID";
              rows :=
                map (fun r =>
                       <["Facility_ID" := Str (join_underscore (org_tuple r))]>
                         (fill_record (columns current_df) r org_cols))
                    (rows current_df) |}.
Proof.
  unfold build_facility_id, fill_org_cols. rewrite fill_org_cols_unfold.
  destruct (require_columns _ org_cols) as [[]|e] eqn:E.
  - pose proof (proj1 (require_columns_Ok _ _) E) as Hall.
    cbn [columns] in Hall. cbn [bind rows].
    rewrite (map_result_map _ _
      (fun r => <["Facility_ID" := Str (join_underscore (org_tuple r))]>
                  (fill_record (columns current_df) r org_cols))).
    2:{ intros r. by rewrite facility_id_of_filled. }
    cbn [bind]. split.
    + intros [= <-]. done.
    + intros [_ ->]. done.
  - apply require_columns_Raise in E as (col & -> & Hcol & Hnot).
    cbn [columns] in Hnot. cbn [bind]. split; [done|].
    intros [Hall _]. destruct Hnot. by apply Hall.
Qed.

(** A header without one of the seven columns stops the script. *)
Lemma build_facility_id_Raise (current_df : DataFrame) (col : string) :
  col ∈ org_cols -> col ∉ columns current_df ->
  exists col',
    build_facility_id current_df = Raise (KeyError col')
    /\ col' ∈ org_cols /\ col' ∉ columns current_df.
Proof.
  intros Hcol Hnot. unfold build_facility_id, fill_org_cols.
  rewrite fill_org_cols_unfold.
  destruct (require_columns _ org_cols) as [[]|e] eqn:E.
  - pose proof (proj1 (require_columns_Ok _ _) E) as Hall.
    destruct Hnot. by apply Hall.
  - apply require_columns_Raise in E as (col' & -> & ? & ?). by exists col'.
Qed.

Lemma split_at_underscore (x y s t : string) :
  no_underscore x -> no_underscore y ->
  x ++ "_" ++ s = y ++ "_" ++ t -> x = y /\ s = t.
Proof.
  unfold no_underscore. revert y.
  induction x as [|c x IH]; intros [|d y] Hx Hy; cbn in Hx, Hy.
  - rewrite !str_app_nil_l, !str_app_cons, !str_app_nil_l. by intros [= ->].
  - rewrite !str_app_nil_l, !str_app_cons. intros [= <- _]. done.
  - rewrite !str_app_nil_l, !str_app_cons. intros [= -> _]. done.
  - rewrite !str_app_cons. intros [= -> H].
    apply andb_true_iff in Hx as [_ Hx]. apply andb_true_iff in Hy as [_ Hy].
    destruct (IH y Hx Hy H) as [-> ->]. done.
Qed.

Lemma join_underscore_inj (a b : list string) :
  length a = length b ->
  Forall no_underscore (removelast a) -> Forall no_underscore (removelast b) ->
  join_underscore a = join_underscore b -> a = b.
Proof.
  revert b. induction a as [|x a IH]; intros [|y b] Hlen Ha Hb; try done.
  destruct a as [|x2 a], b as [|y2 b]; try done.
  - cbn. by intros ->.
  - change (removelast (x :: x2 :: a)) with (x :: removelast (x2 :: a)) in Ha.
    change (removelast (y :: y2 :: b)) with (y :: removelast (y2 :: b)) in Hb.
    apply Forall_cons in Ha as [Hx Ha]. apply Forall_cons in Hb as [Hy Hb].
    change (join_underscore (x :: x2 :: a))
      with (x ++ "_" ++ join_underscore (x2 :: a)).
    change (join_underscore (y :: y2 :: b))
      with (y ++ "_" ++ join_underscore (y2 :: b)).
    intros H. apply split_at_underscore in H as [-> H]; [|done..].
    f_equal. apply IH; [|done..]. cbn in Hlen |- *. lia.
Qed.

(** C6 (as amended): the Facility_ID of a record is the underscore join of
    its 7-tuple after the fill, so equal tuples give equal keys; equal keys
    give equal tuples when no underscore occurs in the first six values of
    either tuple. *)
Theorem facility_id_of_tuple (current_df df' : DataFrame) (i j : nat)
    (r1 r2 r1' r2' : gmap string cell) :
  build_facility_id current_df = Ok df' ->
  rows current_df !! i = Some r1 -> rows current_df !! j = Some r2 ->
  rows df' !! i = Some r1' -> rows df' !! j = Some r2' ->
  at_col r1' "Facility_ID" = Str (join_underscore (org_tuple r1))
  /\ (org_tuple r1 = org_tuple r2 ->
      at_col r1' "Facility_ID" = at_col r2' "Facility_ID")
  /\ (Forall no_underscore (take 6 (org_tuple r1)) ->
      Forall no_underscore (take 6 (org_tuple r2)) ->
      at_col r1' "Facility_ID" = at_col r2' "Facility_ID" ->
      org_tuple r1 = org_tuple r2).
Proof.
  intros Hb H1 H2 H1' H2'.
  assert (forall k r r', rows current_df !! k = Some r ->
            rows df' !! k = Some r' ->
            at_col r' "Facility_ID" = Str (join_underscore (org_tuple r)))
    as Hid.
  { apply build_facility_id_Ok in Hb as [_ ->]. cbn [rows].
    intros k r r' Hr. change (map ?f ?l) with (f <$> l).
    rewrite list_lookup_fmap, Hr. intros H. injection H as H.
    rewrite <- H. apply at_col_insert_eq. }
  rewrite (Hid i r1 r1' H1 H1'), (Hid j r2 r2' H2 H2').
  split; [done|]. split.
  - by intros ->.
  - intros Hn1 Hn2 H.
    apply (join_underscore_inj (org_tuple r1) (org_tuple r2));
      [reflexivity|exact Hn1|exact Hn2|congruence].
Qed.

Lemma facility_id_of_tuple_witness :
  exists r1' r2',
    at_col r1' "Facility_ID"
    = Str (join_underscore (org_tuple (org_record (Str "KP") (Str "Swat"))))
    /\ (at_col r1' "Facility_ID" = at_col r2' "Facility_ID" ->
        org_tuple (org_record (Str "KP") (Str "Swat"))
        = org_tuple (org_record (Str "KP") (Str "Dir"))).
Proof.
  eassert (build_facility_id plain_frame = Ok _) as Hb
    by (vm_compute; reflexivity).
  destruct (facility_id_of_tuple plain_frame _ 0 1 _ _ _ _ Hb
              eq_refl eq_refl eq_refl eq_refl) as (Hid & _ & Hinj).
  eexists _, _. split; [exact Hid|].
  apply Hinj; vm_compute; repeat constructor.
Defined.

(** Two records with different 7-tuples and the same Facility_ID. *)
Lemma facility_id_collision :
  facility_ids underscore_frame
  = Ok [Str "North_West_Swat_c_Unknown_e_f_Basic Health Unit";
        Str "North_West_Swat_c_Unknown_e_f_Basic Health Unit"]
  /\ map org_tuple (rows underscore_frame)
     = [["North_West"; "Swat"; "c"; "Unknown"; "e"; "f"; "Basic Health Unit"];
        ["North"; "West_Swat"; "c"; "Unknown"; "e"; "f"; "Basic Health Unit"]].
Proof. split; vm_compute; reflexivity. Qed.

(** C7: on an upload without the column orgunitlevel6 the script stops with
    a KeyError on that column instead of producing a Facility_ID. *)
Theorem facility_id_missing_column :
  has_column frame_without_level6 "orgunitlevel6" = false
  /\ build_facility_id frame_without_level6 = Raise (KeyError "orgunitlevel6")
  /\ forall thresholds min_deviation show_all,
       run frame_without_level6 thresholds min_deviation show_all
       = Raise (KeyError "orgunitlevel6").
Proof.
  assert (build_facility_id frame_without_level6
          = Raise (KeyError "orgunitlevel6")) as H
    by (vm_compute; reflexivity).
  split; [vm_compute; reflexivity|]. split; [exact H|].
  intros thresholds min_deviation show_all. unfold run. by rewrite H.
Qed.

(** ** The whole script on scenario A

    One facility, Measles, week 15, Cases 12 against thresholds 8 and 15:
    an Alert with Deviation 4, shown for min_deviation 3 and not for 5.  The
    second record of the upload has a label that does not match and leaves
    no trace. *)
Example run_scenario_A :
  run upload_A thresholds_A 3 false
  = Ok [ {| Facility_ID := Str "KP_Swat_c_Unknown_e_f_Basic Health Unit";
            Disease := Str "Measles (New Cases)"; Season := Str "Spring";
            Cases := Some 12; Mean := Some (5#1)%Q; SD := Some (2#1)%Q;
            Threshold_95 := Some (8#1)%Q; Threshold_99 := Some (15#1)%Q;
            Alert_Level := Alert; Deviation := Some (4#1)%Q |} ]
  /\ run upload_A thresholds_A 5 false = Ok [].
Proof. split; vm_compute; reflexivity. Qed.

(** ** The join with the thresholds (line 102) *)

Lemma observation_with_thresholds (l : long_row) (t : threshold_row) :
  observation_of (with_thresholds l t) = l.
Proof. by destruct l. Qed.

Lemma observation_without_thresholds (l : long_row) :
  observation_of (without_thresholds l) = l.
Proof. by destruct l. Qed.

(** The merged rows of one observation. *)
Lemma merged_of_observation (l : long_row) (thresholds : list threshold_row)
    (m : merged_row) :
  m ∈ match matches_of l thresholds with
      | [] => [without_thresholds l]
      | ts => map (with_thresholds l) ts
      end <->
  (matches_of l thresholds = [] /\ m = without_thresholds l)
  \/ (exists t, t ∈ thresholds /\ key_match l t = true
               /\ m = with_thresholds l t).
Proof.
  destruct (matches_of l thresholds) as [|t0 ts] eqn:E.
  - rewrite list_elem_of_singleton. split; [by left|].
    intros [[_ ->]|(t & Ht & Hk & _)]; [done|].
    assert (t ∈ matches_of l thresholds) as Hin
      by (by apply list_elem_of_filter).
    rewrite E in Hin. by apply elem_of_nil in Hin.
  - change (map ?f ?x) with (f <$> x). rewrite list_elem_of_fmap. split.
    + intros (t & -> & Ht). right. exists t.
      rewrite <- E in Ht. apply list_elem_of_filter in Ht as [? ?]. done.
    + intros [[? _]|(t & Ht & Hk & ->)]; [done|]. exists t. split; [done|].
      rewrite <- E. by apply list_elem_of_filter.
Qed.

Lemma elem_of_merge_left (current_long : list long_row)
    (thresholds : list threshold_row) (m : merged_row) :
  m ∈ merge_left current_long thresholds <->
  exists l, l ∈ current_long
    /\ ((matches_of l thresholds = [] /\ m = without_thresholds l)
        \/ (exists t, t ∈ thresholds /\ key_match l t = true
                     /\ m = with_thresholds l t)).
Proof.
  unfold merge_left. rewrite list_elem_of_In, in_flat_map. split.
  - intros (l & Hl & Hm). exists l. rewrite list_elem_of_In. split; [done|].
    apply merged_of_observation. by apply list_elem_of_In.
  - intros (l & Hl & Hm). exists l. rewrite <- !list_elem_of_In.
    split; [done|]. by apply merged_of_observation.
Qed.

(** X1: the left join loses no observation and invents none: every
    observation is the left part of some merged row, and every merged row
    is an observation together with the columns of a thresholds row of the
    same key, or with four missing values when no key matches. *)
Theorem merge_left_observations (current_long : list long_row)
    (thresholds : list threshold_row) :
  (forall l, l ∈ current_long ->
     exists m, m ∈ merge_left current_long thresholds /\ observation_of m = l)
  /\ (forall m, m ∈ merge_left current_long thresholds ->
        observation_of m ∈ current_long
        /\ ((exists t, t ∈ thresholds
               /\ th_key t = (m_Facility_ID m, m_Disease m, m_Season m)
               /\ m_Mean m = th_Mean t /\ m_SD m = th_SD t
               /\ m_Threshold_95 m = th_Threshold_95 t
               /\ m_Threshold_99 m = th_Threshold_99 t)
            \/ ((forall t, t ∈ thresholds ->
                   th_key t <> (m_Facility_ID m, m_Disease m, m_Season m))
                /\ m_Mean m = None /\ m_SD m = None
                /\ m_Threshold_95 m = None /\ m_Threshold_99 m = None))).
Proof.
  assert (forall l t, key_match l t = true <->
            th_key t = (l_Facility_ID l, l_Disease l, l_Season l)) as Hkey.
  { intros l t. unfold key_match, th_key.
    rewrite !andb_true_iff, !bool_decide_eq_true. split.
    - intros [[-> ->] ->]. done.
    - intros [= -> -> ->]. done. }
  split.
  - intros l Hl. destruct (matches_of l thresholds) as [|t ts] eqn:E.
    + exists (without_thresholds l).
      split; [|apply observation_without_thresholds].
      apply elem_of_merge_left. exists l. split; [done|]. by left.
    + assert (t ∈ matches_of l thresholds) as Ht by (rewrite E; left).
      apply list_elem_of_filter in Ht as [Hk Ht].
      exists (with_thresholds l t).
      split; [|apply observation_with_thresholds].
      apply elem_of_merge_left. exists l. split; [done|]. right. by exists t.
  - intros m (l & Hl & Hm)%elem_of_merge_left.
    destruct Hm as [[Hnone ->]|(t & Ht & Hk & ->)].
    + rewrite observation_without_thresholds. split; [done|]. right.
      split; [|done]. intros t Ht Heq. cbn in Heq.
      apply Hkey in Heq.
      assert (t ∈ matches_of l thresholds) as Hin
        by (by apply list_elem_of_filter).
      rewrite Hnone in Hin. by apply elem_of_nil in Hin.
    + rewrite observation_with_thresholds. split; [done|]. left.
      exists t. split; [done|]. split; [|done]. by apply Hkey.
Qed.

Lemma merge_left_observations_witness :
  exists m, m ∈ merge_left [observation_of scenario_A] []
            /\ observation_of m = observation_of scenario_A.
Proof.
  destruct (merge_left_observations [observation_of scenario_A] []) as [H _].
  apply H. apply list_elem_of_singleton. reflexivity.
Defined.

Lemma merged_of_observation_length (l : long_row)
    (thresholds : list threshold_row) :
  length (match matches_of l thresholds with
          | [] => [without_thresholds l]
          | ts => map (with_thresholds l) ts
          end)
  = Nat.max 1 (length (matches_of l thresholds)).
Proof.
  destruct (matches_of l thresholds) as [|t ts]; [done|].
  rewrite length_map. cbn. lia.
Qed.

Lemma flat_map_length_sum {A B} (f : A -> list B) (l : list A) :
  length (flat_map f l) = sum_list (map (fun x => length (f x)) l).
Proof.
  induction l as [|x l IH]; [done|].
  change (sum_list (map ?f (x :: l))) with (f x + sum_list (map f l))%nat.
  cbn [flat_map]. by rewrite length_app, IH.
Qed.

Lemma merge_left_length (current_long : list long_row)
    (thresholds : list threshold_row) :
  length (merge_left current_long thresholds)
  = sum_list (map (fun l => Nat.max 1 (length (matches_of l thresholds)))
                  current_long).
Proof.
  unfold merge_left. rewrite flat_map_length_sum. f_equal.
  apply map_ext. intros l. apply merged_of_observation_length.
Qed.

Lemma unique_key_matches (l : long_row) (thresholds : list threshold_row) :
  NoDup (map th_key thresholds) ->
  (length (matches_of l thresholds) <= 1)%nat.
Proof.
  unfold matches_of. induction thresholds as [|t ts IH]; [cbn; lia|].
  cbn [map]. intros [Hnot Hnd]%NoDup_cons. specialize (IH Hnd).
  rewrite filter_cons. case_decide as Hk; [|done].
  cbn [length]. destruct (filter _ ts) as [|t' ts'] eqn:E; [cbn; lia|].
  exfalso. apply Hnot.
  assert (t' ∈ filter (fun t => key_match l t = true) ts) as Ht'
    by (rewrite E; left).
  apply list_elem_of_filter in Ht' as [Hk' Hin].
  assert (th_key t = th_key t') as ->.
  { unfold key_match in Hk, Hk'. unfold th_key.
    rewrite !andb_true_iff, !bool_decide_eq_true in Hk, Hk'.
    destruct Hk as [[<- <-] <-], Hk' as [[<- <-] <-]. done. }
  change (map ?f ?x) with (f <$> x). by apply list_elem_of_fmap_2.
Qed.

(** X2: the join never shrinks the table: its length is the sum over the
    observations of the number of thresholds rows with their key, counted
    as one when there is none; with pairwise different keys in the
    thresholds table it has exactly one row per observation. *)
Theorem merge_left_cardinality (current_long : list long_row)
    (thresholds : list threshold_row) :
  length (merge_left current_long thresholds)
  = sum_list (map (fun l => Nat.max 1 (length (matches_of l thresholds)))
                  current_long)
  /\ (length current_long <= length (merge_left current_long thresholds))%nat
  /\ (NoDup (map th_key thresholds) ->
      length (merge_left current_long thresholds) = length current_long).
Proof.
  split; [apply merge_left_length|]. rewrite merge_left_length. split.
  - induction current_long as [|l ls IH]; [done|].
    change (sum_list (map ?f (l :: ls))) with (f l + sum_list (map f ls))%nat.
    cbn [length]. lia.
  - intros Hnd. induction current_long as [|l ls IH]; [done|].
    change (sum_list (map ?f (l :: ls))) with (f l + sum_list (map f ls))%nat.
    cbn beta. rewrite IH. cbn [length].
    pose proof (unique_key_matches l thresholds Hnd). lia.
Qed.

Lemma merge_left_cardinality_witness :
  length (merge_left [observation_of scenario_A; observation_of no_baseline_95]
            thresholds_A) = 2%nat.
Proof.
  apply (merge_left_cardinality
           [observation_of scenario_A; observation_of no_baseline_95]
           thresholds_A).
  apply (bool_decide_unpack _). vm_compute. exact I.
Defined.

(** X3: an observation whose key is in no thresholds row is kept by the
    join with missing thresholds, is classified Normal with Deviation 0
    whatever its Cases, and is in neither the default nor the show_all
    table. *)
Theorem unmatched_observation_hidden (current_long : list long_row)
    (thresholds : list threshold_row) (l : long_row)
    (show_all : bool) (min_deviation : Z) :
  l ∈ current_long ->
  (forall t, t ∈ thresholds ->
     th_key t <> (l_Facility_ID l, l_Disease l, l_Season l)) ->
  let alerts := classify_all (merge_left current_long thresholds) in
  let a := classify (without_thresholds l) in
  a ∈ alerts
  /\ Cases a = l_Cases l
  /\ Alert_Level a = Normal /\ Deviation a = Some 0%Q
  /\ a ∉ report show_all min_deviation alerts.
Proof.
  intros Hl Hkeys alerts a. subst alerts a.
  assert (matches_of l thresholds = []) as Hnone.
  { destruct (matches_of l thresholds) as [|t ts] eqn:E; [done|].
    assert (t ∈ matches_of l thresholds) as Ht by (rewrite E; left).
    apply list_elem_of_filter in Ht as [Hk Ht]. destruct (Hkeys t Ht).
    unfold key_match in Hk. unfold th_key.
    rewrite !andb_true_iff, !bool_decide_eq_true in Hk.
    by destruct Hk as [[-> ->] ->]. }
  split; [|split; [done|split; [|split]]].
  - apply list_elem_of_fmap_2, elem_of_merge_left.
    exists l. split; [done|]. by left.
  - cbn. unfold alert_level_of. by destruct (l_Cases l).
  - cbn. unfold alert_level_of. by destruct (l_Cases l).
  - destruct show_all; cbn [report].
    + rewrite elem_of_all_data. cbn. tauto.
    + rewrite elem_of_filtered_alerts. cbn. tauto.
Qed.

Lemma unmatched_observation_hidden_witness :
  classify (without_thresholds (observation_of no_baseline_95))
  ∉ report false 1
      (classify_all (merge_left [observation_of no_baseline_95] thresholds_A)).
Proof.
  apply (unmatched_observation_hidden [observation_of no_baseline_95]
           thresholds_A (observation_of no_baseline_95) false 1).
  - apply list_elem_of_singleton. reflexivity.
  - intros t Ht%list_elem_of_singleton. subst t. vm_compute. discriminate.
Defined.

(** ** Deviation and the slider (lines 103-116) *)

(** X4: the Deviation of a classified row is never missing: it is 0 when
    the row is Normal and positive when it is an Alert or a High Alert. *)
Theorem deviation_sign (m : merged_row) :
  (Alert_Level (classify m) = Normal -> Deviation (classify m) = Some 0%Q)
  /\ (Alert_Level (classify m) <> Normal ->
      exists d, Deviation (classify m) = Some d /\ (0 < d)%Q).
Proof.
  destruct m as [fid dis sea cases mean sd t95 t99]. cbn.
  destruct (alert_level_cases t95 t99 cases)
    as [(H & ->)|[(N & H & ->)|(N99 & N95 & ->)]]; cbn.
  - split; [done|]. intros _. destruct H as (c & q & -> & -> & H).
    eexists. split; [reflexivity|]. by apply Qlt_minus_iff in H.
  - split; [done|]. intros _. destruct H as (c & q & -> & -> & H).
    eexists. split; [reflexivity|]. by apply Qlt_minus_iff in H.
  - split; [done|]. intros H. by destruct H.
Qed.

Lemma deviation_sign_witness :
  exists d, Deviation (classify scenario_A) = Some d /\ (0 < d)%Q.
Proof.
  destruct (deviation_sign scenario_A) as [_ H]. apply H. discriminate.
Defined.

(** X5: raising min_deviation only removes rows from the default table:
    the table for the larger cutoff is the table for the smaller one with
    some rows left out, in the same order. *)
Theorem filtered_alerts_antitone (min_deviation min_deviation' : Z)
    (alerts : list alert_row) :
  min_deviation <= min_deviation' ->
  filtered_alerts min_deviation' alerts
    `sublist_of` filtered_alerts min_deviation alerts.
Proof.
  intros Hle. unfold filtered_alerts.
  induction alerts as [|a l IH]; [constructor|].
  rewrite !filter_cons. repeat case_decide.
  - by apply sublist_skip.
  - exfalso. apply alert_mask_spec in H as (? & ? & d & Hd & Hq).
    apply H0, alert_mask_spec. split; [done|]. split; [done|].
    exists d. split; [done|]. eapply Qle_trans; [|exact Hq].
    by rewrite <- Zle_Qle.
  - by apply sublist_cons.
  - done.
Qed.

Lemma filtered_alerts_antitone_witness :
  filtered_alerts 5 (classify_all [scenario_A])
    `sublist_of` filtered_alerts 3 (classify_all [scenario_A]).
Proof.
  apply (filtered_alerts_antitone 3 5 (classify_all [scenario_A])). lia.
Defined.

(** X6: the default table is not monotone in Cases.  With both thresholds
    present, a row between Threshold_95 + min_deviation and Threshold_99 is
    shown as an Alert, while a row with more cases, above Threshold_99 by
    less than min_deviation, is a High Alert and is not shown: its
    Deviation is counted from Threshold_99. *)
Theorem high_alert_below_cutoff (merged : list merged_row)
    (m1 m2 : merged_row) (min_deviation c1 c2 : Z) (q95 q99 : Q) :
  m1 ∈ merged -> m2 ∈ merged ->
  m_Threshold_95 m1 = Some q95 -> m_Threshold_99 m1 = Some q99 ->
  m_Threshold_95 m2 = Some q95 -> m_Threshold_99 m2 = Some q99 ->
  m_Cases m1 = Some c1 -> m_Cases m2 = Some c2 ->
  (q95 + inject_Z min_deviation <= inject_Z c1)%Q ->
  (inject_Z c1 <= q99)%Q -> (q99 < inject_Z c2)%Q ->
  (inject_Z c2 < q99 + inject_Z min_deviation)%Q ->
  1 <= min_deviation ->
  let table := report false min_deviation (classify_all merged) in
  c1 < c2
  /\ Alert_Level (classify m1) = Alert /\ classify m1 ∈ table
  /\ Alert_Level (classify m2) = High_Alert /\ classify m2 ∉ table.
Proof.
  intros Hm1 Hm2 H95 H99 H95' H99' Hc1 Hc2 Hlo Hmid Hhi Hclose Hmd table.
  subst table. cbn [report].
  assert ((0 < inject_Z min_deviation)%Q) as Hpos
    by (change 0%Q with (inject_Z 0); rewrite <- Zlt_Qlt; lia).
  assert ((q95 < inject_Z c1)%Q) as Hgt95.
  { eapply Qlt_le_trans; [|exact Hlo].
    rewrite <- (Qplus_0_r q95) at 1. by apply Qplus_lt_r. }
  assert (Alert_Level (classify m1) = Alert) as Hl1.
  { cbn. rewrite Hc1, H95, H99. apply alert_level_alert.
    - intros (c & q & [= <-] & [= <-] & Hlt). by apply (Qlt_not_le _ _ Hlt).
    - by exists c1, q95. }
  assert (Alert_Level (classify m2) = High_Alert) as Hl2.
  { cbn. rewrite Hc2, H95', H99'. apply alert_level_high. by exists c2, q99. }
  split; [|split; [done|split; [|split; [done|]]]].
  - rewrite Zlt_Qlt. eapply Qle_lt_trans; [exact Hmid|exact Hhi].
  - apply elem_of_filtered_alerts.
    split; [by apply list_elem_of_fmap_2|]. split; [by rewrite Hl1|].
    split; [cbn; by rewrite H95|].
    destruct (classified_deviation m1) as [_ Hd]. rewrite (Hd Hl1), Hc1, H95.
    eexists. split; [reflexivity|].
    apply (Qplus_le_l _ _ q95). ring_simplify.
    by rewrite Qplus_comm.
  - rewrite elem_of_filtered_alerts. intros (_ & _ & _ & d & Hd & Hle).
    destruct (classified_deviation m2) as [Hdev _].
    rewrite (Hdev Hl2), Hc2, H99' in Hd. injection Hd as <-.
    apply (Qplus_le_l _ _ q99) in Hle. ring_simplify in Hle.
    apply (Qlt_not_le _ _ Hclose). by rewrite Qplus_comm.
Qed.

Lemma high_alert_below_cutoff_witness :
  classify (cases_against_8_15 14)
    ∈ report false 3 (classify_all [cases_against_8_15 14; cases_against_8_15 16])
  /\ classify (cases_against_8_15 16)
       ∉ report false 3
           (classify_all [cases_against_8_15 14; cases_against_8_15 16]).
Proof.
  assert (cases_against_8_15 14
            ∈ [cases_against_8_15 14; cases_against_8_15 16]) as H1 by left.
  assert (cases_against_8_15 16
            ∈ [cases_against_8_15 14; cases_against_8_15 16]) as H2
    by (right; left).
  assert (1 <= 3) as Hmd by lia.
  pose proof (high_alert_below_cutoff
                [cases_against_8_15 14; cases_against_8_15 16]
                (cases_against_8_15 14) (cases_against_8_15 16) 3 14 16
                (8#1)%Q (15#1)%Q H1 H2 eq_refl eq_refl eq_refl eq_refl
                eq_refl eq_refl) as H.
  destruct H as (_ & _ & Hshown & _ & Hhidden); try done.
Defined.

(** ** The page (lines 119-141) *)

Lemma count_levels (table : list alert_row) :
  (forall a, a ∈ table -> Alert_Level a <> Normal) ->
  (count_level High_Alert table + count_level Alert table)%nat = length table.
Proof.
  unfold count_level. induction table as [|a l IH]; intros Hall; [done|].
  rewrite !filter_cons. cbn [length]. rewrite <- IH.
  2:{ intros b Hb. apply Hall. by right. }
  assert (Alert_Level a <> Normal) as Ha by (apply Hall; left).
  destruct (Alert_Level a); [done| |];
    repeat case_decide; try done; cbn [length]; lia.
Qed.

(** X7: in default mode the page shows either the alerts or the message
    that there are none, never the full table.  When it shows alerts the
    table is not empty, the total is its length and the two metrics, High
    Alerts and Moderate Alerts, add up to the total; it shows the message
    exactly when no classified row passes the selection. *)
Theorem render_default (min_deviation : Z) (alerts : list alert_row) :
  match render false min_deviation alerts with
  | Full_Data _ => False
  | Alerts_Generated total high_count alert_count table =>
      table = filtered_alerts min_deviation alerts
      /\ table <> []
      /\ total = length table
      /\ (high_count + alert_count)%nat = total
  | No_Alerts =>
      forall a, a ∈ alerts -> alert_mask min_deviation a = false
  end.
Proof.
  unfold render. case_bool_decide as E; cbn [negb].
  - intros a Ha. destruct (alert_mask min_deviation a) eqn:Em; [|done].
    assert (a ∈ filtered_alerts min_deviation alerts) as Hin
      by (by apply list_elem_of_filter).
    rewrite E in Hin. by apply elem_of_nil in Hin.
  - split; [done|]. split; [done|]. split; [done|].
    apply count_levels. intros a Ha.
    apply elem_of_filtered_alerts in Ha. tauto.
Qed.

(** ** Membership in the disease columns *)

Lemma disease_col_true (df : DataFrame) (col : string) :
  col ∈ disease_cols df -> is_disease_col col = true.
Proof. unfold disease_cols. by intros [? _]%list_elem_of_filter. Qed.

(** ** Facility_ID: the outcome of lines 47-54 *)

(** X10: building the Facility_ID either succeeds or stops with a KeyError
    on one of the seven columns that the header lacks, and with no other
    exception: the sum never meets a value that is not a text.  When it
    succeeds the header has the seven columns, the frame keeps its records
    in order, Facility_ID is a text in each of them and every column
    outside the seven is as it was. *)
Theorem build_facility_id_outcome (current_df : DataFrame) :
  match build_facility_id current_df with
  | Ok df =>
      (forall col, col ∈ org_cols -> col ∈ columns current_df)
      /\ columns df = add_column (columns current_df) "Facility_ID"
      /\ length (rows df) = length (rows current_df)
      /\ (forall i r r',
            rows current_df !! i = Some r -> rows df !! i = Some r' ->
            (exists s, at_col r' "Facility_ID" = Str s)
            /\ (forall col, col ∉ org_cols -> col <> "Facility_ID" ->
                  at_col r' col = at_col r col))
  | Raise e =>
      exists col, e = KeyError col /\ col ∈ org_cols
                  /\ col ∉ columns current_df
  end.
Proof.
  destruct (build_facility_id current_df) as [df|e] eqn:E.
  - apply build_facility_id_Ok in E as [Hall ->]. cbn [columns rows].
    split; [done|]. split; [done|]. split; [by rewrite length_map|].
    intros i r r' Hr. change (map ?f ?x) with (f <$> x).
    rewrite list_lookup_fmap, Hr. intros H. apply (inj Some) in H.
    rewrite <- H. split.
    + eexists. apply at_col_insert_eq.
    + intros col Hcol Hne. rewrite at_col_insert_ne by done.
      by apply fill_record_other.
  - destruct (decide (Forall (fun col => col ∈ columns current_df) org_cols))
      as [Hall|Hnot].
    + rewrite Forall_forall in Hall.
      assert (build_facility_id current_df
              = Ok {| columns := add_column (columns current_df) "Facility_ID";
                      rows := map (fun r =>
                        <["Facility_ID" := Str (join_underscore (org_tuple r))]>
                          (fill_record (columns current_df) r org_cols))
                        (rows current_df) |}) as Hok.
      { apply build_facility_id_Ok. split; [|done].
        intros col Hcol. by apply Hall. }
      congruence.
    + apply not_Forall_Exists in Hnot; [|apply _].
      apply Exists_exists in Hnot as (col & Hcol & Hmiss).
      destruct (build_facility_id_Raise current_df col) as (col' & E' & ? & ?);
        [done|done|].
      exists col'. split; [congruence|done].
Qed.

Lemma build_facility_id_outcome_witness :
  exists col, KeyError "orgunitlevel6" = KeyError col /\ col ∈ org_cols
              /\ col ∉ columns frame_without_level6.
Proof.
  pose proof (build_facility_id_outcome frame_without_level6) as H.
  assert (build_facility_id frame_without_level6
          = Raise (KeyError "orgunitlevel6")) as E
    by (vm_compute; reflexivity).
  rewrite E in H. exact H.
Defined.

(** ** The shape of a matching label (lines 58-59) *)

Lemma str_app_nil_r (s : string) : s ++ "" = s.
Proof. induction s as [|c s IH]; [done|]. by rewrite str_app_cons, IH. Qed.

Lemma piece_ok_char (c : ascii) (cap : bool) (t : string) :
  piece_ok {| p_set := Char c; p_quant := Once; p_capture := cap |} t <->
  t = String c "".
Proof.
  unfold piece_ok. cbn. split.
  - intros [Hall Hlen]. destruct t as [|d [|e t]]; cbn in Hlen; try done.
    cbn in Hall. rewrite andb_true_r in Hall.
    apply Ascii.eqb_eq in Hall. by subst.
  - intros ->. cbn. by rewrite Ascii.eqb_refl.
Qed.

(** A literal in front of a pattern consumes exactly its text. *)
Lemma literal_split (s : string) (r : regex) (parts : list string) :
  Forall2 piece_ok (literal s ++ r)%list parts <->
  exists parts',
    Forall2 piece_ok r parts'
    /\ parts = (map (fun c => String c "") (list_ascii_of_string s) ++ parts')%list.
Proof.
  revert parts. induction s as [|c s IH]; intros parts;
    cbn [literal app list_ascii_of_string map].
  - split; [by exists parts|]. by intros (parts' & ? & ->).
  - split.
    + intros (t & parts1 & Ht & H & ->)%Forall2_cons_inv_l.
      apply piece_ok_char in Ht as ->.
      apply IH in H as (parts' & H & ->). by exists parts'.
    + intros (parts' & H & ->). constructor; [by apply piece_ok_char|].
      apply IH. by exists parts'.
Qed.

Lemma concat_literal (s : string) (parts : list string) :
  concat_str (map (fun c => String c "") (list_ascii_of_string s) ++ parts)%list
  = s ++ concat_str parts.
Proof.
  induction s as [|c s IH]; [done|].
  cbn [list_ascii_of_string map app concat_str].
  by rewrite IH, !str_app_cons, str_app_nil_l.
Qed.

Lemma captured_literal (s : string) (r : regex) (parts : list string) :
  captured (literal s ++ r)%list
    (map (fun c => String c "") (list_ascii_of_string s) ++ parts)%list
  = captured r parts.
Proof. induction s as [|c s IH]; [done|]. exact IH. Qed.

Lemma piece_ok_digits (q : quantifier) (cap : bool) (t : string) :
  piece_ok {| p_set := Digit; p_quant := q; p_capture := cap |} t <->
  digit_run t /\ quant_ok q (String.length t).
Proof. reflexivity. Qed.

(** The texts matched from their first character by the period pattern,
    with the two groups. *)
Lemma patterns_0_parts (parts : list string) :
  Forall2 piece_ok patterns_0 parts ->
  exists week year m1 d1 year2 m2 d2,
    period_fields week year m1 d1 year2 m2 d2
    /\ concat_str parts = period_text week year m1 d1 year2 m2 d2
    /\ captured patterns_0 parts = [week; year].
Proof.
  unfold patterns_0, digits, group_digits. cbn [app]. intros H.
  apply literal_split in H as (p1 & H & ->).
  apply Forall2_cons_inv_l in H as (week & p2 & Hweek & H & ->).
  apply literal_split in H as (p3 & H & ->).
  apply Forall2_cons_inv_l in H as (year & p4 & Hyear & H & ->).
  apply literal_split in H as (p5 & H & ->).
  apply Forall2_cons_inv_l in H as (m1 & p6 & Hm1 & H & ->).
  apply literal_split in H as (p7 & H & ->).
  apply Forall2_cons_inv_l in H as (d1 & p8 & Hd1 & H & ->).
  apply literal_split in H as (p9 & H & ->).
  apply Forall2_cons_inv_l in H as (year2 & p10 & Hyear2 & H & ->).
  apply literal_split in H as (p11 & H & ->).
  apply Forall2_cons_inv_l in H as (m2 & p12 & Hm2 & H & ->).
  apply literal_split in H as (p13 & H & ->).
  apply Forall2_cons_inv_l in H as (d2 & p14 & Hd2 & H & ->).
  apply Forall2_nil_inv_l in H as ->.
  exists week, year, m1, d1, year2, m2, d2. split; [|split].
  - unfold period_fields. rewrite piece_ok_digits in *. cbn in *. tauto.
  - unfold period_text.
    repeat (rewrite concat_literal; cbn [concat_str]).
    by rewrite (str_app_nil_r d2).
  - repeat (rewrite captured_literal; cbn [captured p_capture]). done.
Qed.

Lemma period_text_parts (week year m1 d1 year2 m2 d2 : string) :
  period_fields week year m1 d1 year2 m2 d2 ->
  exists parts,
    Forall2 piece_ok patterns_0 parts
    /\ concat_str parts = period_text week year m1 d1 year2 m2 d2.
Proof.
  intros (Hw & Hy & Hm1 & Hd1 & Hy2 & Hm2 & Hd2).
  eexists. split.
  - unfold patterns_0, digits, group_digits. cbn [app].
    apply literal_split. eexists. split; [|reflexivity].
    constructor; [apply piece_ok_digits; exact Hw|].
    apply literal_split. eexists. split; [|reflexivity].
    constructor; [apply piece_ok_digits; exact Hy|].
    apply literal_split. eexists. split; [|reflexivity].
    constructor; [apply piece_ok_digits; exact Hm1|].
    apply literal_split. eexists. split; [|reflexivity].
    constructor; [apply piece_ok_digits; exact Hd1|].
    apply literal_split. eexists. split; [|reflexivity].
    constructor; [apply piece_ok_digits; exact Hy2|].
    apply literal_split. eexists. split; [|reflexivity].
    constructor; [apply piece_ok_digits; exact Hm2|].
    apply literal_split. eexists. split; [|reflexivity].
    constructor; [apply piece_ok_digits; exact Hd2|]. constructor.
  - unfold period_text.
    repeat (rewrite concat_literal; cbn [concat_str]).
    by rewrite (str_app_nil_r d2).
Qed.



(** ** Stripping the label (line 57) *)

Lemma lstrip_suffix (s : string) : exists ws, s = ws ++ lstrip s.
Proof.
  induction s as [|c s [ws IH]]; [by exists ""|]. cbn.
  destruct (is_space c); [|by exists ""].
  exists (String c ws). by rewrite str_app_cons, <- IH.
Qed.

Lemma rstrip_prefix (s : string) : exists ws, s = rstrip s ++ ws.
Proof.
  induction s as [|c s [ws IH]]; [by exists ""|]. cbn.
  destruct (rstrip s) as [|d t] eqn:E.
  - rewrite str_app_nil_l in IH. subst ws.
    destruct (is_space c); [by exists (String c s)|by exists s].
  - exists ws. by rewrite str_app_cons, <- IH.
Qed.

Lemma lstrip_keep (a b : string) (c : ascii) :
  is_space c = false ->
  exists a', lstrip (a ++ String c b) = a' ++ String c b.
Proof.
  intros Hc. induction a as [|x a [a' IH]].
  - exists "". rewrite !str_app_nil_l. cbn. by rewrite Hc.
  - rewrite str_app_cons. cbn. destruct (is_space x).
    + by exists a'.
    + exists (String x a). by rewrite str_app_cons.
Qed.

Lemma rstrip_keep (a b : string) (c : ascii) :
  is_space c = false ->
  exists b', rstrip (a ++ String c b) = a ++ String c b'.
Proof.
  intros Hc. induction a as [|x a [b' IH]].
  - exists (rstrip b). rewrite !str_app_nil_l. cbn.
    destruct (rstrip b); by rewrite ?Hc.
  - exists b'. rewrite !str_app_cons. cbn. rewrite IH.
    destruct a; by rewrite ?str_app_nil_l, ?str_app_cons.
Qed.

Lemma search_inside (r : regex) (a t b : string) :
  is_Some (search r t) -> is_Some (search r (a ++ t ++ b)).
Proof.
  rewrite !search_is_Some. intros (before & parts & rest & Hparts & ->).
  exists (a ++ before), parts, (rest ++ b). split; [done|].
  by rewrite !str_app_assoc.
Qed.

Lemma digit_not_space (c : ascii) : is_digit c = true -> is_space c = false.
Proof.
  unfold is_digit, is_space. rewrite andb_true_iff.
  intros [H1%Nat.leb_le H2%Nat.leb_le].
  apply orb_false_iff. split; apply andb_false_iff.
  - right. apply Nat.leb_gt. lia.
  - right. apply Nat.leb_gt. lia.
Qed.

(** A matched text starts with W and ends with a digit. *)
Lemma period_text_ends (week year m1 d1 year2 m2 d2 : string) :
  period_fields week year m1 d1 year2 m2 d2 ->
  exists t u c,
    period_text week year m1 d1 year2 m2 d2 = String "W" t
    /\ period_text week year m1 d1 year2 m2 d2 = u ++ String c ""
    /\ is_space c = false.
Proof.
  intros (_ & _ & _ & _ & _ & _ & Hd2 & Hlen).
  destruct d2 as [|x [|c [|]]]; try done.
  unfold digit_run in Hd2. cbn in Hd2.
  apply andb_true_iff in Hd2 as [_ [Hc _]%andb_true_iff].
  eexists _, ("Week " ++ week ++ " " ++ year ++ "-" ++ m1 ++ "-" ++ d1
              ++ " - " ++ year2 ++ "-" ++ m2 ++ "-" ++ String x ""), c.
  split; [reflexivity|]. split; [|by apply digit_not_space].
  unfold period_text. rewrite !str_app_assoc. reflexivity.
Qed.

(** X12: stripping the label before the search changes nothing about
    which records are kept: the stripped label matches exactly when the
    label as uploaded does, since a match starts with W and ends with a
    digit. *)
Theorem strip_keeps_match (s : string) :
  is_Some (search patterns_0 (strip s)) <-> is_Some (search patterns_0 s).
Proof.
  split.
  - intros H. unfold strip in H.
    destruct (lstrip_suffix s) as [ws1 H1].
    destruct (rstrip_prefix (lstrip s)) as [ws2 H2].
    rewrite H1, H2. by apply search_inside.
  - intros [groups H].
    destruct (search_Some _ _ _ H) as (before & parts & rest & Hparts & -> & _).
    destruct (patterns_0_parts parts Hparts)
      as (week & year & m1 & d1 & year2 & m2 & d2 & Hf & -> & _).
    destruct (period_text_ends _ _ _ _ _ _ _ Hf) as (t & u & c & HW & Hend & Hc).
    unfold strip.
    assert (exists a', lstrip (before ++ period_text week year m1 d1 year2 m2 d2
                                 ++ rest)
                       = a' ++ period_text week year m1 d1 year2 m2 d2 ++ rest)
      as [a' ->].
    { rewrite HW, str_app_cons. by apply lstrip_keep. }
    assert (exists b', rstrip (a' ++ period_text week year m1 d1 year2 m2 d2
                                 ++ rest)
                       = a' ++ period_text week year m1 d1 year2 m2 d2 ++ b')
      as [b' ->].
    { rewrite Hend. destruct (rstrip_keep (a' ++ u) rest c Hc) as [b' Hb'].
      exists b'. rewrite !str_app_assoc in *. exact Hb'. }
    apply search_inside.
    destruct (period_text_parts _ _ _ _ _ _ _ Hf) as (parts' & Hparts' & <-).
    apply search_is_Some. exists "", parts', "".
    split; [done|]. by rewrite str_app_nil_l, str_app_nil_r.
Qed.

Lemma strip_keeps_match_witness :
  is_Some (search patterns_0 "  Week 15 2024-04-08 - 2024-04-14  ").
Proof.
  apply (strip_keeps_match "  Week 15 2024-04-08 - 2024-04-14  ").
  exists ["15"; "2024"]. vm_compute. reflexivity.
Defined.

(** ** Disease columns (line 67) *)

Lemma prefix_spec (a s : string) :
  String.prefix a s = true <-> exists post, s = a ++ post.
Proof.
  revert a. induction s as [|d s IH]; intros [|c a]; cbn.
  - split; [|done]. intros _. by exists "".
  - split; [done|]. by intros [? ?].
  - split; [|done]. intros _. by exists (String d s).
  - destruct (ascii_dec c d) as [->|Hne].
    + rewrite IH. split.
      * intros [post ->]. by exists post.
      * intros [post H]. rewrite str_app_cons in H. injection H as ->.
        by exists post.
    + split; [done|]. intros [post H]. rewrite str_app_cons in H.
      by injection H as -> _.
Qed.

(** [sub in s] holds exactly when [s] contains [sub]. *)
Lemma contains_spec (sub s : string) :
  contains sub s = true <-> exists pre post, s = pre ++ sub ++ post.
Proof.
  induction s as [|c s IH].
  - cbn [contains]. rewrite orb_false_r, prefix_spec. split.
    + intros [post ->]. by exists "", post.
    + intros (pre & post & H). destruct pre; [by exists post|done].
  - cbn [contains]. rewrite orb_true_iff, prefix_spec, IH. split.
    + intros [[post ->]|(pre & post & ->)]; [by exists "", post|].
      by exists (String c pre), post.
    + intros (pre & post & H). destruct pre as [|d pre].
      * left. by exists post.
      * right. rewrite str_app_cons in H. injection H as _ ->.
        by exists pre, post.
Qed.

(** X13: the disease columns are the columns of the header whose name
    contains "(New Cases)" or "(New cases)", with this very casing, in
    header order; the columns the script works with itself (the seven
    organisational ones, periodname, Facility_ID, Week, Year, Season) are
    never among them. *)
Theorem disease_cols_spec (df : DataFrame) :
  (forall col, col ∈ disease_cols df <->
     col ∈ columns df
     /\ exists pre post, col = pre ++ "(New Cases)" ++ post
                         \/ col = pre ++ "(New cases)" ++ post)
  /\ disease_cols df `sublist_of` columns df
  /\ (forall col,
        col ∈ org_cols
        \/ col ∈ ["periodname"; "Facility_ID"; "Week"; "Year"; "Season"] ->
        col ∉ disease_cols df).
Proof.
  split; [|split].
  - intros col. unfold disease_cols, is_disease_col.
    rewrite list_elem_of_filter, orb_true_iff, !contains_spec. split.
    + intros [[(pre & post & ->)|(pre & post & ->)] Hin]; split; try done.
      * exists pre, post. by left.
      * exists pre, post. by right.
    + intros [Hin (pre & post & [->| ->])]; split; try done.
      * left. by exists pre, post.
      * right. by exists pre, post.
  - apply sublist_filter.
  - intros col Hcol. apply not_disease_col.
    unfold org_cols in Hcol.
    rewrite !elem_of_cons, !elem_of_nil in Hcol.
    repeat destruct Hcol as [Hcol|Hcol]; try done; by subst col.
Qed.

Lemma disease_cols_spec_witness :
  "Measles (New Cases)" ∈ disease_cols week_2_frame.
Proof.
  destruct (disease_cols_spec week_2_frame) as [H _]. apply H. split.
  - right. right. right. left.
  - exists "Measles ", "". left. reflexivity.
Defined.

(** ** Year-round diseases in the join (lines 99-102) *)

(** X14: after the override an observation of an allowlisted disease has
    Season 'Year-Round' when it is joined, so its thresholds can only come
    from a thresholds row whose Season is 'Year-Round': the rows that the
    thresholds table holds for it under a calendar season are never
    used. *)
Theorem year_round_join (current_long : list long_row)
    (thresholds : list threshold_row) (m : merged_row) (disease : string) :
  m ∈ merge_left (override_year_round current_long) thresholds ->
  m_Disease m = Str disease -> disease ∈ year_round_diseases ->
  m_Season m = Str "Year-Round"
  /\ ((exists t, t ∈ thresholds
         /\ th_key t = (m_Facility_ID m, Str disease, Str "Year-Round")
         /\ m_Threshold_95 m = th_Threshold_95 t
         /\ m_Threshold_99 m = th_Threshold_99 t)
      \/ (m_Threshold_95 m = None /\ m_Threshold_99 m = None)).
Proof.
  intros (l & Hl & Hm)%elem_of_merge_left HD Hyr.
  assert (observation_of m = l) as Hobs.
  { destruct Hm as [[_ ->]|(t & _ & _ & ->)].
    - apply observation_without_thresholds.
    - apply observation_with_thresholds. }
  assert (l_Disease l = Str disease) as HDl by (by rewrite <- Hobs).
  assert (l_Season l = Str "Year-Round") as HSl.
  { unfold override_year_round in Hl.
    apply list_elem_of_fmap in Hl as (l0 & Hl0 & _).
    destruct (isin (l_Disease l0) year_round_diseases) eqn:E.
    - by rewrite Hl0.
    - subst l. rewrite HDl in E. apply isin_true in Hyr. congruence. }
  assert (m_Season m = Str "Year-Round") as HS by (by rewrite <- HSl, <- Hobs).
  split; [done|].
  destruct Hm as [[_ ->]|(t & Ht & Hk & ->)]; [by right|].
  left. exists t. split; [done|]. split; [|done].
  unfold key_match in Hk. unfold th_key.
  rewrite !andb_true_iff, !bool_decide_eq_true in Hk.
  destruct Hk as [[<- <-] <-]. cbn. by rewrite HDl, HSl.
Qed.

Lemma year_round_join_witness :
  m_Season
    (without_thresholds
       {| l_Facility_ID := Str "KP_Swat_BHU"; l_Season := Str "Year-Round";
          l_Disease := Str "HIV/AIDS (New Cases)"; l_Cases := Some 1 |})
  = Str "Year-Round".
Proof.
  apply (year_round_join
           [ {| l_Facility_ID := Str "KP_Swat_BHU"; l_Season := Str "Winter";
                l_Disease := Str "HIV/AIDS (New Cases)"; l_Cases := Some 1 |} ]
           thresholds_A _ "HIV/AIDS (New Cases)").
  - vm_compute. left.
  - reflexivity.
  - unfold year_round_diseases. right. right. right. left.
Defined.

(** ** The frame after lines 47-54 *)

Lemma elem_of_add_column (header : list string) (col col' : string) :
  col' ∈ add_column header col <-> col' ∈ header \/ col' = col.
Proof.
  unfold add_column. case_bool_decide as E.
  - split; [by left|]. intros [H|H]; [done|by subst].
  - rewrite elem_of_app, list_elem_of_singleton. done.
Qed.


Lemma build_facility_id_with (current_df : DataFrame) :
  (forall col, col ∈ org_cols -> col ∈ columns current_df) ->
  build_facility_id current_df = Ok (with_facility_id current_df).
Proof. intros H. by apply build_facility_id_Ok. Qed.


Lemma disease_col_not_org (df : DataFrame) (col : string) :
  col ∈ disease_cols df ->
  (col ∉ org_cols) /\ col <> "Facility_ID" /\ col <> "periodname"
  /\ col <> "Week" /\ col <> "Year".
Proof.
  intros H%disease_col_true. repeat split; try (intros ->; by vm_compute in H).
  unfold org_cols. rewrite !elem_of_cons, elem_of_nil.
  intros Hcol. repeat destruct Hcol as [Hcol|Hcol];
    try done; subst col; by vm_compute in H.
Qed.



(** ** Period labels (lines 56-64) *)

Lemma to_numeric_digits (s : string) :
  all_chars is_digit s = true -> (1 <= String.length s <= 15)%nat ->
  to_numeric (Str s) = Ok (Int (decimal_value 0 s)).
Proof.
  intros Hs [Hlen Hmax]. unfold to_numeric. rewrite Hs.
  apply Nat.leb_le in Hmax. rewrite Hmax.
  destruct s; [cbn in Hlen; lia|]. reflexivity.
Qed.

Lemma to_numeric_long (s : string) (c : cell) :
  to_numeric (Str s) = Ok c -> (String.length s <= 15)%nat.
Proof.
  unfold to_numeric. destruct (Nat.leb_spec (String.length s) 15); [done|].
  by rewrite andb_false_r.
Qed.

(** The label that the pattern sees is the cell of line 57. *)
Lemma period_label_cell (r : gmap string cell) :
  str_strip (astype_str (at_col r "periodname")) = Str (period_label r).
Proof. unfold period_label. by destruct (at_col r "periodname"). Qed.

(** A record that goes through lines 57-63: its label is ASCII, Week and
    Year are the numbers of the two groups, with a week of at most 15
    digits, or both missing when the pattern is not found, and the other
    columns but periodname are untouched. *)
Lemma parse_period_Ok (r r' : gmap string cell) :
  parse_period r = Ok r' ->
  ascii_text (period_label r) = true
  /\ (forall col, col <> "periodname" -> col <> "Week" -> col <> "Year" ->
        at_col r' col = at_col r col)
  /\ match search patterns_0 (period_label r) with
     | Some groups =>
         exists week year,
           groups = [week; year]
           /\ (String.length week <= 15)%nat
           /\ at_col r' "Week" = Int (decimal_value 0 week)
           /\ at_col r' "Year" = Int (decimal_value 0 year)
     | None => at_col r' "Week" = NaN /\ at_col r' "Year" = NaN
     end.
Proof.
  unfold parse_period. cbv zeta. rewrite !at_col_insert_eq, period_label_cell.
  unfold str_extract.
  destruct (ascii_text (period_label r)); [|done]. cbn [bind].
  rewrite at_col_insert_eq.
  destruct (search patterns_0 (period_label r)) as [groups|] eqn:Es.
  - destruct (patterns_0_groups _ _ Es)
      as (week & year & -> & Hw & Hwl & Hy & Hyl).
    cbn [lookup list_lookup from_option].
    rewrite (to_numeric_digits year) by (done || lia). cbn [bind].
    rewrite !(at_col_insert_ne _ "Year" "Week") by done.
    rewrite at_col_insert_eq.
    destruct (to_numeric (Str week)) as [c|] eqn:Ec; [|done].
    pose proof (to_numeric_long _ _ Ec) as Hmax.
    rewrite to_numeric_digits in Ec by (done || lia).
    injection Ec as <-. cbn [bind]. intros [= <-].
    split; [done|]. split.
    + intros col H1 H2 H3. by rewrite !at_col_insert_ne by done.
    + exists week, year. rewrite at_col_insert_eq.
      rewrite (at_col_insert_ne _ "Week" "Year"), at_col_insert_eq by done.
      done.
  - cbn [to_numeric bind].
    rewrite !(at_col_insert_ne _ "Year" "Week") by done.
    rewrite at_col_insert_eq. cbn [to_numeric bind]. intros [= <-].
    split; [done|]. split.
    + intros col H1 H2 H3. by rewrite !at_col_insert_ne by done.
    + rewrite at_col_insert_eq.
      by rewrite (at_col_insert_ne _ "Week" "Year"), at_col_insert_eq by done.
Qed.


Lemma parse_period_is_modelled (r r' : gmap string cell) :
  parse_period r = Ok r' -> label_modelled r = true.
Proof.
  intros H. apply parse_period_Ok in H as (Ha & _ & Hg).
  unfold label_modelled. rewrite Ha. cbn [andb].
  destruct (search patterns_0 (period_label r)) as [groups|]; [|done].
  destruct Hg as (week & year & -> & Hlen & _). by apply Nat.leb_le.
Qed.

(** The mask of line 64 keeps the records whose label matches. *)
Lemma has_year_week_matches (r r' : gmap string cell) :
  parse_period r = Ok r' -> has_year_week r' = true <-> matches_period r.
Proof.
  intros H. apply parse_period_Ok in H as (_ & _ & Hg).
  unfold has_year_week, matches_period.
  destruct (search patterns_0 (period_label r)) as [groups|].
  - destruct Hg as (week & year & _ & _ & -> & ->). split; [by eexists|done].
  - destruct Hg as [-> ->]. split; [done|]. by intros [? ?].
Qed.

Lemma Forall2_filter {A B} (R : A -> B -> Prop) (P : A -> Prop) (Q : B -> Prop)
    `{!forall x, Decision (P x)} `{!forall y, Decision (Q y)}
    (l : list A) (l' : list B) :
  (forall x y, R x y -> P x <-> Q y) ->
  Forall2 R l l' -> Forall2 R (filter P l) (filter Q l').
Proof.
  intros HPQ HF. induction HF as [|x y l l' Hxy _ IH]; [constructor|].
  rewrite !filter_cons. pose proof (HPQ x y Hxy).
  repeat case_decide; try tauto. by constructor.
Qed.


(** Lines 57-64 when they go through. *)
Lemma parse_periodname_Ok (current_df df' : DataFrame) :
  parse_periodname current_df = Ok df' ->
  "periodname" ∈ columns current_df
  /\ ("Year" ∉ columns current_df) /\ ("Week" ∉ columns current_df)
  /\ columns df' = (columns current_df ++ ["Week"; "Year"])%list
  /\ (forall r, r ∈ rows current_df -> label_modelled r = true)
  /\ Forall2 (fun r r' => parse_period r = Ok r')
             (filter matches_period (rows current_df)) (rows df').
Proof.
  unfold parse_periodname. cbn [require_columns]. unfold has_column.
  case_bool_decide as Hp; [|done]. cbn [bind].
  case_bool_decide as Hy; [done|]. case_bool_decide as Hw; [done|].
  cbn [orb].
  destruct (map_result parse_period (rows current_df)) as [rows'|] eqn:E;
    [|done].
  cbn [bind]. intros [= <-]. cbn [columns rows].
  apply map_result_Forall2 in E. repeat (split; [done|]). split.
  - intros r Hr. apply list_elem_of_lookup in Hr as [k Hk].
    destruct (Forall2_lookup_l _ _ _ _ _ E Hk) as (r' & _ & Hr').
    by apply parse_period_is_modelled in Hr'.
  - apply (Forall2_filter _ matches_period
             (fun r' => has_year_week r' = true)); [|done].
    intros r r' Hr. symmetry. by apply has_year_week_matches.
Qed.



(** ** Counts (lines 66-69) *)

Lemma astype_int_Ok (c v : cell) :
  astype_int c = Ok v -> exists z, c = Int z /\ v = Int z /\ int64 z = true.
Proof.
  destruct c as [|s|z]; cbn; [done|done|].
  destruct (int64 z) eqn:E; [|done]. intros [= <-]. by exists z.
Qed.

Lemma fill_counts_other (cols : list string) (r r' : gmap string cell)
    (col : string) :
  fill_counts cols r = Ok r' -> col ∉ cols -> at_col r' col = at_col r col.
Proof.
  revert r. induction cols as [|c cols IH]; intros r; cbn.
  - by intros [= <-].
  - destruct (astype_int _) as [v|]; [|done]. cbn.
    intros H [Hne Hnot]%not_elem_of_cons.
    rewrite (IH _ H Hnot). by apply at_col_insert_ne.
Qed.

(** After lines 68-69 a count column holds the integer of the cell, 0 for
    a missing cell, also when the header names the column twice. *)
Lemma fill_counts_at (cols : list string) (r r' : gmap string cell)
    (col : string) :
  fill_counts cols r = Ok r' -> col ∈ cols ->
  exists z, at_col r' col = Int z /\ int64 z = true
            /\ fillna (Int 0) (at_col r col) = Int z.
Proof.
  revert r. induction cols as [|c cols IH]; intros r H Hin.
  - by apply elem_of_nil in Hin.
  - cbn in H. destruct (astype_int (fillna (Int 0) (at_col r c))) as [v|] eqn:Ev;
      [|done].
    cbn in H. destruct (astype_int_Ok _ _ Ev) as (z & Hz & -> & H64).
    destruct (decide (col = c)) as [->|Hne].
    + destruct (decide (c ∈ cols)) as [Hc|Hc].
      * destruct (IH _ H Hc) as (z' & Hz' & H64' & Hfill).
        rewrite at_col_insert_eq in Hfill. cbn in Hfill.
        injection Hfill as <-. by exists z.
      * exists z. rewrite (fill_counts_other _ _ _ _ H Hc).
        by rewrite at_col_insert_eq.
    + apply elem_of_cons in Hin as [?|Hin]; [done|].
      destruct (IH _ H Hin) as (z' & Hz' & H64' & Hfill).
      rewrite at_col_insert_ne in Hfill by done. by exists z'.
Qed.



(** ** Melt (lines 87-91) *)

Lemma Forall2_in_l {A B} (R : A -> B -> Prop) (l : list A) (l' : list B)
    (x : A) :
  Forall2 R l l' -> x ∈ l -> exists y, y ∈ l' /\ R x y.
Proof.
  intros HF [k Hk]%list_elem_of_lookup.
  destruct (Forall2_lookup_l _ _ _ _ _ HF Hk) as (y & Hy & HR).
  exists y. split; [|done]. by apply list_elem_of_lookup_2 in Hy.
Qed.

Lemma Forall2_in_r {A B} (R : A -> B -> Prop) (l : list A) (l' : list B)
    (y : B) :
  Forall2 R l l' -> y ∈ l' -> exists x, x ∈ l /\ R x y.
Proof.
  intros HF [k Hk]%list_elem_of_lookup.
  destruct (Forall2_lookup_r _ _ _ _ _ HF Hk) as (x & Hx & HR).
  exists x. split; [|done]. by apply list_elem_of_lookup_2 in Hx.
Qed.

Lemma melt_block_Ok (df : DataFrame) (disease : string)
    (block : list long_row) :
  melt_block df disease = Ok block ->
  Forall2 (fun r l =>
             exists c, to_numeric (at_col r disease) = Ok c
               /\ l = {| l_Facility_ID := at_col r "Facility_ID";
                         l_Season := at_col r "Season";
                         l_Disease := Str disease;
                         l_Cases := number_of c |})
          (rows df) block.
Proof.
  intros H. apply map_result_Forall2 in H.
  eapply Forall2_impl; [exact H|]. cbn. intros r l Hrl.
  destruct (to_numeric (at_col r disease)) as [c|]; [|done].
  cbn in Hrl. injection Hrl as <-. by exists c.
Qed.

Lemma melt_Ok (df : DataFrame) (value_vars : list string)
    (long : list long_row) :
  melt df value_vars = Ok long ->
  ("Cases" ∉ columns df)
  /\ (forall col, col ∈ (["Facility_ID"; "Season"] ++ value_vars)%list ->
        col ∈ columns df)
  /\ exists blocks,
       Forall2 (fun disease block => melt_block df disease = Ok block)
               value_vars blocks
       /\ long = List.concat blocks.
Proof.
  unfold melt, has_column. case_bool_decide as Hc; [done|].
  destruct (require_columns df _) as [[]|] eqn:Hreq; [|done]. cbn [bind].
  destruct (map_result (melt_block df) value_vars) as [blocks|] eqn:E; [|done].
  cbn [bind]. intros [= <-]. split; [done|]. split.
  - by apply require_columns_Ok.
  - exists blocks. split; [|done]. by apply map_result_Forall2.
Qed.

Lemma elem_of_melt (df : DataFrame) (value_vars : list string)
    (long : list long_row) (l : long_row) :
  melt df value_vars = Ok long ->
  l ∈ long <->
  exists r disease c,
    r ∈ rows df /\ disease ∈ value_vars
    /\ to_numeric (at_col r disease) = Ok c
    /\ l = {| l_Facility_ID := at_col r "Facility_ID";
              l_Season := at_col r "Season";
              l_Disease := Str disease;
              l_Cases := number_of c |}.
Proof.
  intros H. apply melt_Ok in H as (_ & _ & blocks & HF & ->).
  rewrite list_elem_of_In, in_concat. split.
  - intros (block & Hb & Hl).
    rewrite <- list_elem_of_In in Hb. rewrite <- list_elem_of_In in Hl.
    destruct (Forall2_in_r _ _ _ _ HF Hb) as (disease & Hd & Hblock).
    apply melt_block_Ok in Hblock.
    destruct (Forall2_in_r _ _ _ _ Hblock Hl) as (r & Hr & c & Hc & ->).
    by exists r, disease, c.
  - intros (r & disease & c & Hr & Hd & Hc & ->).
    destruct (Forall2_in_l _ _ _ _ HF Hd) as (block & Hb & Hblock).
    apply melt_block_Ok in Hblock.
    destruct (Forall2_in_l _ _ _ _ Hblock Hr) as (l & Hl & c' & Hc' & ->).
    exists block. rewrite <- !list_elem_of_In. split; [done|].
    by replace c with c' by congruence.
Qed.

Lemma melt_length (df : DataFrame) (value_vars : list string)
    (long : list long_row) :
  melt df value_vars = Ok long ->
  length long = (length value_vars * length (rows df))%nat.
Proof.
  intros H. apply melt_Ok in H as (_ & _ & blocks & HF & ->).
  induction HF as [|disease block vars blocks Hb _ IH]; [done|].
  cbn [List.concat length]. rewrite length_app, IH.
  unfold melt_block in Hb. by rewrite (map_result_length _ _ _ Hb).
Qed.


(** ** The long table (lines 56-99) *)

Lemma reshape_Ok (current_df : DataFrame) (current_long : list long_row) :
  reshape current_df = Ok current_long ->
  exists df1 rows2 long,
    parse_periodname current_df = Ok df1
    /\ map_result (fill_counts (disease_cols df1)) (rows df1) = Ok rows2
    /\ melt (add_season {| columns := columns df1; rows := rows2 |})
            (disease_cols df1) = Ok long
    /\ current_long = override_year_round long.
Proof.
  unfold reshape, fill_disease_cols.
  destruct (parse_periodname current_df) as [df1|]; [|done].
  cbn [bind].
  destruct (map_result _ (rows df1)) as [rows2|] eqn:E2; [|done].
  cbn [bind columns].
  destruct (melt _ _) as [long|] eqn:E3; [|done].
  cbn [bind]. intros H. exists df1, rows2, long. by injection H as <-.
Qed.

Lemma disease_cols_parsed (current_df df1 : DataFrame) :
  columns df1 = (columns current_df ++ ["Week"; "Year"])%list ->
  disease_cols df1 = disease_cols current_df.
Proof.
  intros H. unfold disease_cols. by rewrite H, disease_cols_week_year.
Qed.

(** One record through lines 57-69. *)
Lemma record_chain (current_df : DataFrame) (r r1 r2 : gmap string cell)
    (disease : string) :
  parse_period r = Ok r1 ->
  fill_counts (disease_cols current_df) r1 = Ok r2 ->
  matches_period r -> disease ∈ disease_cols current_df ->
  exists week year z,
    search patterns_0 (period_label r) = Some [week; year]
    /\ fillna (Int 0) (at_col r disease) = Int z /\ int64 z = true
    /\ at_col r2 disease = Int z
    /\ at_col r2 "Facility_ID" = at_col r "Facility_ID"
    /\ at_col r1 "Week" = Int (decimal_value 0 week)
    /\ at_col r2 "Week" = Int (decimal_value 0 week).
Proof.
  intros Hp Hf [groups Hm] Hd.
  destruct (parse_period_Ok _ _ Hp) as (_ & Hother & Hg).
  rewrite Hm in Hg. destruct Hg as (week & year & -> & _ & Hw & _).
  destruct (fill_counts_at _ _ _ _ Hf Hd) as (z & Hz & H64 & Hfill).
  destruct (disease_col_not_org _ _ Hd) as (_ & _ & ? & ? & ?).
  rewrite Hother in Hfill by done.
  exists week, year, z. repeat (split; [done|]). split; [|split; [done|]].
  - rewrite (fill_counts_other _ _ _ _ Hf) by (by apply not_disease_col).
    by apply Hother.
  - by rewrite (fill_counts_other _ _ _ _ Hf) by (by apply not_disease_col).
Qed.

(** The row that melt and the override make of a record after line 85. *)
Lemma melted_row (r2 : gmap string cell) (disease : string) (z week : Z) :
  at_col r2 disease = Int z -> int64 z = true ->
  at_col r2 "Week" = Int week -> is_disease_col disease = true ->
  let r' := <["Season" := Str (assign_season (number_of (at_col r2 "Week")))]>
              r2 in
  to_numeric (at_col r' disease) = Ok (Int z)
  /\ at_col r' "Season" = Str (assign_season (Some week))
  /\ at_col r' "Facility_ID" = at_col r2 "Facility_ID".
Proof.
  intros Hz H64 Hw Hd r'. subst r'.
  assert (disease <> "Season") as Hne by (intros ->; by vm_compute in Hd).
  rewrite at_col_insert_eq, !at_col_insert_ne by done.
  rewrite Hz, Hw. cbn [to_numeric number_of]. by rewrite H64.
Qed.

(** The rows of [current_long], one by one: a record whose label matches
    and a disease column, with the count of the record's cell and the
    season of the record's week unless the disease is year-round. *)
Lemma reshape_rows (current_df : DataFrame) (current_long : list long_row)
    (l : long_row) :
  reshape current_df = Ok current_long ->
  l ∈ current_long <->
  exists r week year disease z,
    r ∈ rows current_df
    /\ search patterns_0 (period_label r) = Some [week; year]
    /\ disease ∈ disease_cols current_df
    /\ fillna (Int 0) (at_col r disease) = Int z /\ int64 z = true
    /\ l = {| l_Facility_ID := at_col r "Facility_ID";
              l_Season :=
                if isin (Str disease) year_round_diseases
                then Str "Year-Round"
                else Str (assign_season (Some (decimal_value 0 week)));
              l_Disease := Str disease;
              l_Cases := Some z |}.
Proof.
  intros H. apply reshape_Ok in H as (df1 & rows2 & long & E1 & E2 & E3 & ->).
  apply parse_periodname_Ok in E1 as (_ & _ & _ & Hcols & _ & HF1).
  rewrite (disease_cols_parsed _ _ Hcols) in *.
  apply map_result_Forall2 in E2.
  unfold override_year_round. change (map ?f ?x) with (f <$> x).
  rewrite list_elem_of_fmap. split.
  - intros (l0 & -> & Hl0).
    apply (elem_of_melt _ _ _ _ E3) in Hl0 as (r' & disease & c & Hr' & Hd & Hc & ->).
    unfold add_season, assign in Hr'. cbn [rows] in Hr'.
    change (map ?f ?x) with (f <$> x) in Hr'.
    apply list_elem_of_fmap in Hr' as (r2 & -> & Hr2).
    destruct (Forall2_in_r _ _ _ _ E2 Hr2) as (r1 & Hr1 & Hfill).
    destruct (Forall2_in_r _ _ _ _ HF1 Hr1) as (r & Hr & Hparse).
    apply list_elem_of_filter in Hr as [Hm Hr].
    destruct (record_chain _ _ _ _ _ Hparse Hfill Hm Hd)
      as (week & year & z & Hs & Hz & H64 & Hz2 & Hfid & _ & Hw).
    destruct (melted_row r2 disease z _ Hz2 H64 Hw (disease_col_true _ _ Hd))
      as (Hnum & Hseason & Hfid').
    rewrite Hnum in Hc. injection Hc as <-.
    exists r, week, year, disease, z. repeat (split; [done|]).
    rewrite Hseason, Hfid', Hfid. cbn [l_Disease number_of].
    by destruct (isin (Str disease) year_round_diseases).
  - intros (r & week & year & disease & z & Hr & Hs & Hd & Hz & H64 & ->).
    assert (matches_period r) as Hm by (by eexists).
    assert (r ∈ filter matches_period (rows current_df)) as Hrf
      by (by apply list_elem_of_filter).
    destruct (Forall2_in_l _ _ _ _ HF1 Hrf) as (r1 & Hr1 & Hparse).
    destruct (Forall2_in_l _ _ _ _ E2 Hr1) as (r2 & Hr2 & Hfill).
    destruct (record_chain _ _ _ _ _ Hparse Hfill Hm Hd)
      as (week' & year' & z' & Hs' & Hz' & H64' & Hz2 & Hfid & _ & Hw).
    rewrite Hs in Hs'. injection Hs' as <- <-.
    rewrite Hz in Hz'. injection Hz' as <-.
    destruct (melted_row r2 disease z _ Hz2 H64 Hw (disease_col_true _ _ Hd))
      as (Hnum & Hseason & Hfid').
    eexists. split; [|apply (elem_of_melt _ _ _ _ E3)].
    2:{ exists (<["Season" :=
                    Str (assign_season (number_of (at_col r2 "Week")))]> r2),
               disease, (Int z).
        split; [|split; [exact Hd|split; [exact Hnum|reflexivity]]].
        unfold add_season, assign. cbn [rows].
        change (map ?f ?x) with (f <$> x).
        apply list_elem_of_fmap. by exists r2. }
    rewrite Hseason, Hfid', Hfid. cbn [l_Disease number_of].
    by destruct (isin (Str disease) year_round_diseases).
Qed.

(** What the reshaping has read of a record that it keeps. *)
Lemma reshape_record (current_df : DataFrame) (current_long : list long_row)
    (r : gmap string cell) (disease : string) :
  reshape current_df = Ok current_long ->
  r ∈ rows current_df -> matches_period r ->
  disease ∈ disease_cols current_df ->
  exists week year z r1,
    search patterns_0 (period_label r) = Some [week; year]
    /\ parse_period r = Ok r1
    /\ at_col r1 "Week" = Int (decimal_value 0 week)
    /\ fillna (Int 0) (at_col r disease) = Int z /\ int64 z = true.
Proof.
  intros H Hr Hm Hd.
  apply reshape_Ok in H as (df1 & rows2 & long & E1 & E2 & E3 & ->).
  apply parse_periodname_Ok in E1 as (_ & _ & _ & Hcols & _ & HF1).
  rewrite (disease_cols_parsed _ _ Hcols) in *.
  apply map_result_Forall2 in E2.
  assert (r ∈ filter matches_period (rows current_df)) as Hrf
    by (by apply list_elem_of_filter).
  destruct (Forall2_in_l _ _ _ _ HF1 Hrf) as (r1 & Hr1 & Hparse).
  destruct (Forall2_in_l _ _ _ _ E2 Hr1) as (r2 & Hr2 & Hfill).
  destruct (record_chain _ _ _ _ _ Hparse Hfill Hm Hd)
    as (week & year & z & Hs & Hz & H64 & _ & _ & Hw & _).
  by exists week, year, z, r1.
Qed.

Lemma reshape_length (current_df : DataFrame) (current_long : list long_row) :
  reshape current_df = Ok current_long ->
  length current_long
  = (length (disease_cols current_df)
     * length (filter matches_period (rows current_df)))%nat.
Proof.
  intros H. apply reshape_Ok in H as (df1 & rows2 & long & E1 & E2 & E3 & ->).
  apply parse_periodname_Ok in E1 as (_ & _ & _ & Hcols & _ & HF1).
  unfold override_year_round. rewrite length_map, (melt_length _ _ _ E3).
  unfold add_season, assign. cbn [rows]. rewrite length_map.
  rewrite (map_result_length _ _ _ E2), <- (Forall2_length _ _ _ HF1).
  by rewrite (disease_cols_parsed _ _ Hcols).
Qed.





(** ** The year-round override (lines 93-99) *)

Lemma overridden_rows (long : list long_row) :
  Forall2 overridden long (override_year_round long).
Proof.
  unfold override_year_round. induction long as [|l long IH]; [constructor|].
  cbn [map]. constructor; [|done]. unfold overridden, isin.
  case_bool_decide as E; cbn; repeat split; done.
Qed.

(** C5: the long table has one row for every record whose label matches and
    every disease column, and no other row.  The row of an allowlisted
    disease has Season 'Year-Round' whatever the week of its record, the
    row of another disease has the season of its record's week.  Line 99
    itself keeps every row in its place with its Facility_ID, Disease and
    Cases, and only rewrites the Season of the allowlisted diseases. *)
Theorem year_round_override (current_df : DataFrame)
    (current_long : list long_row) :
  reshape current_df = Ok current_long ->
  (forall l, l ∈ current_long ->
     exists r r' disease,
       r ∈ rows current_df /\ matches_period r /\ parse_period r = Ok r'
       /\ disease ∈ disease_cols current_df
       /\ l_Disease l = Str disease
       /\ l_Facility_ID l = at_col r "Facility_ID"
       /\ (disease ∈ year_round_diseases -> l_Season l = Str "Year-Round")
       /\ (disease ∉ year_round_diseases ->
           l_Season l = Str (assign_season (number_of (at_col r' "Week")))))
  /\ (forall r disease,
        r ∈ rows current_df -> matches_period r ->
        disease ∈ disease_cols current_df ->
        exists r' l,
          parse_period r = Ok r' /\ l ∈ current_long
          /\ l_Disease l = Str disease
          /\ l_Facility_ID l = at_col r "Facility_ID"
          /\ (disease ∈ year_round_diseases -> l_Season l = Str "Year-Round")
          /\ (disease ∉ year_round_diseases ->
              l_Season l
              = Str (assign_season (number_of (at_col r' "Week")))))
  /\ length current_long
     = (length (disease_cols current_df)
        * length (filter matches_period (rows current_df)))%nat
  /\ (forall long, Forall2 overridden long (override_year_round long)).
Proof.
  intros H. split; [|split; [|split]].
  - intros l Hl.
    apply (reshape_rows _ _ _ H) in Hl
      as (r & week & year & disease & z & Hr & Hs & Hd & _ & _ & ->).
    assert (matches_period r) as Hm by (by eexists).
    destruct (reshape_record _ _ _ _ H Hr Hm Hd)
      as (week' & year' & _ & r' & Hs' & Hparse & Hw & _).
    rewrite Hs in Hs'. injection Hs' as <- <-.
    exists r, r', disease. repeat (split; [done|]).
    cbn [l_Season]. rewrite Hw. cbn [number_of].
    destruct (isin (Str disease) year_round_diseases) eqn:E.
    + apply isin_true in E. done.
    + split; [|done]. intros Hin. apply isin_true in Hin. congruence.
  - intros r disease Hr Hm Hd.
    destruct (reshape_record _ _ _ _ H Hr Hm Hd)
      as (week & year & z & r' & Hs & Hparse & Hw & Hz & H64).
    exists r'. eexists. split; [done|]. split.
    { apply (reshape_rows _ _ _ H). by exists r, week, year, disease, z. }
    cbn [l_Disease l_Facility_ID l_Season]. repeat (split; [done|]).
    rewrite Hw. cbn [number_of].
    destruct (isin (Str disease) year_round_diseases) eqn:E.
    + apply isin_true in E. done.
    + split; [|done]. intros Hin. apply isin_true in Hin. congruence.
  - by apply reshape_length.
  - apply overridden_rows.
Qed.

Lemma year_round_override_witness :
  assign_season (Some 2) = "Winter"
  /\ exists r r' disease,
       r ∈ rows week_2_frame /\ matches_period r /\ parse_period r = Ok r'
       /\ disease ∈ disease_cols week_2_frame
       /\ Str "HIV/AIDS (New Cases)" = Str disease
       /\ Str "KP_Swat_BHU" = at_col r "Facility_ID"
       /\ (disease ∈ year_round_diseases ->
           Str "Year-Round" = Str "Year-Round")
       /\ (disease ∉ year_round_diseases ->
           Str "Year-Round"
           = Str (assign_season (number_of (at_col r' "Week")))).
Proof.
  split; [reflexivity|].
  destruct (year_round_override week_2_frame
           [ {| l_Facility_ID := Str "KP_Swat_BHU"; l_Season := Str "Year-Round";
                l_Disease := Str "HIV/AIDS (New Cases)"; l_Cases := Some 1 |};
             {| l_Facility_ID := Str "KP_Swat_BHU"; l_Season := Str "Winter";
                l_Disease := Str "Measles (New Cases)"; l_Cases := Some 0 |} ])
    as [Hfrom _].
  - vm_compute. reflexivity.
  - apply (Hfrom {| l_Facility_ID := Str "KP_Swat_BHU";
                    l_Season := Str "Year-Round";
                    l_Disease := Str "HIV/AIDS (New Cases)";
                    l_Cases := Some 1 |}).
    left.
Defined.

(** ** Seasons and counts of the long table *)

(** X8: the season 'Unknown' of [assign_season] never reaches the long
    table: the records without a week are dropped before, so every Season
    is one of the four calendar seasons of the record's week or
    'Year-Round'. *)
Theorem season_never_unknown (current_df : DataFrame)
    (current_long : list long_row) (l : long_row) :
  reshape current_df = Ok current_long -> l ∈ current_long ->
  l_Season l
  ∈ [Str "Spring"; Str "Summer"; Str "Autumn"; Str "Winter"; Str "Year-Round"].
Proof.
  intros H Hl.
  apply (reshape_rows _ _ _ H) in Hl
    as (r & week & year & disease & z & _ & _ & _ & _ & _ & ->).
  cbn [l_Season]. destruct (isin _ _); [by repeat constructor|].
  unfold assign_season.
  repeat (destruct (_ && _); [by repeat constructor|]).
  by repeat constructor.
Qed.

Lemma season_never_unknown_witness :
  Str "Year-Round"
  ∈ [Str "Spring"; Str "Summer"; Str "Autumn"; Str "Winter"; Str "Year-Round"].
Proof.
  apply (season_never_unknown week_2_frame
           [ {| l_Facility_ID := Str "KP_Swat_BHU"; l_Season := Str "Year-Round";
                l_Disease := Str "HIV/AIDS (New Cases)"; l_Cases := Some 1 |};
             {| l_Facility_ID := Str "KP_Swat_BHU"; l_Season := Str "Winter";
                l_Disease := Str "Measles (New Cases)"; l_Cases := Some 0 |} ]
           {| l_Facility_ID := Str "KP_Swat_BHU"; l_Season := Str "Year-Round";
              l_Disease := Str "HIV/AIDS (New Cases)"; l_Cases := Some 1 |}).
  - vm_compute. reflexivity.
  - left.
Defined.



(** ** The whole script (lines 41-122) *)











(** X16: an upload with the seven organisational columns and no column
    periodname stops the script with a KeyError on periodname, whatever
    its records. *)
Theorem run_without_periodname (current_df : DataFrame)
    (thresholds : list threshold_row) (min_deviation : Z) (show_all : bool) :
  (forall col, col ∈ org_cols -> col ∈ columns current_df) ->
  "periodname" ∉ columns current_df ->
  run current_df thresholds min_deviation show_all
  = Raise (KeyError "periodname").
Proof.
  intros Horg Hp. unfold run. rewrite build_facility_id_with by done.
  cbn [bind]. unfold reshape, parse_periodname. cbn [require_columns].
  unfold has_column at 1. rewrite bool_decide_eq_false_2; [done|].
  unfold with_facility_id. cbn [columns]. rewrite elem_of_add_column.
  intros [H|H]; [done|discriminate H].
Qed.

Lemma run_without_periodname_witness :
  run frame_without_periodname thresholds_A 3 true
  = Raise (KeyError "periodname").
Proof.
  apply (run_without_periodname frame_without_periodname thresholds_A 3 true).
  - intros col Hcol. apply elem_of_app. by left.
  - apply (bool_decide_unpack _). vm_compute. exact I.
Defined.



Lemma render_default_witness :
  match render false 3 (classify_all [scenario_A]) with
  | Alerts_Generated total high_count alert_count table =>
      (high_count + alert_count)%nat = total
  | _ => False
  end.
Proof.
  pose proof (render_default 3 (classify_all [scenario_A])) as H.
  destruct (render false 3 (classify_all [scenario_A])) as [| |] eqn:E;
    [done| |vm_compute in E; discriminate E].
  by destruct H as (_ & _ & _ & H).
Defined.

(** ** The three bands (lines 103-108) *)

(** X18: when both thresholds are present and Threshold_95 is not above
    Threshold_99, the level is decided by the band of Cases: Normal up to
    Threshold_95, Alert above it and up to Threshold_99, High Alert above
    Threshold_99. *)
Theorem alert_bands (m : merged_row) (c : Z) (q95 q99 : Q) :
  m_Cases m = Some c ->
  m_Threshold_95 m = Some q95 -> m_Threshold_99 m = Some q99 ->
  (q95 <= q99)%Q ->
  (Alert_Level (classify m) = Normal <-> (inject_Z c <= q95)%Q)
  /\ (Alert_Level (classify m) = Alert <->
      (q95 < inject_Z c)%Q /\ (inject_Z c <= q99)%Q)
  /\ (Alert_Level (classify m) = High_Alert <-> (q99 < inject_Z c)%Q).
Proof.
  intros Hc H95 H99 Hord. cbn. rewrite Hc, H95, H99.
  assert (forall q, exceeds (Some c) (Some q) <-> (q < inject_Z c)%Q) as Hex.
  { intros q. split.
    - by intros (c' & q' & [= <-] & [= <-] & H).
    - intros H. by exists c, q. }
  destruct (alert_level_cases (Some q95) (Some q99) (Some c))
    as [(H & ->)|[(N & H & ->)|(N99 & N95 & ->)]];
    rewrite ?Hex in *.
  - split; [|split]; split; try done.
    + intros Hle. exfalso. apply (Qlt_not_le _ _ H).
      by eapply Qle_trans.
    + intros [_ Hle]. exfalso. by apply (Qlt_not_le _ _ H).
  - split; [|split]; split; try done.
    + intros Hle. exfalso. by apply (Qlt_not_le _ _ H).
    + intros _. split; [done|]. by apply Qnot_lt_le.
  - split; [|split]; split; try done.
    + intros _. by apply Qnot_lt_le.
    + by intros [? _].
Qed.

Lemma alert_bands_witness :
  Alert_Level (classify (cases_against_8_15 14)) = Alert.
Proof.
  destruct (alert_bands (cases_against_8_15 14) 14 (8#1)%Q (15#1)%Q
              eq_refl eq_refl eq_refl) as (_ & H & _).
  - discriminate.
  - apply H. split; [reflexivity|discriminate].
Defined.
